(** * expo-styling: the native animation / transition interpolation layer

    A shallow embedding of
    [packages/expo-styling/src/runtime/native/animations.tsx] (the current
    engine) and [animations_old.tsx] (its predecessor), and the properties
    of their interpolation helper, schedule builder, transition tracker and
    timing conversion.

    Conventions of the embedding:
    - a JavaScript number is a [num]: [NaN] or a finite value, a finite
      double being the canonical rational ([Qc]) it denotes, so that [===]
      on finite numbers is Leibniz equality; the arithmetic of this file's
      own code (indices, [%], [Math.floor]) is exact on the values it
      meets, and the rounding of reanimated's [interpolate] is that of the
      runtime: [refRuntime] interpolates exactly, [doubleRuntime] in
      binary64 on the kernel's floats;
    - a JavaScript value is a [value]; an object is its list of own
      enumerable properties in property order;
    - the primitives of react-native-reanimated and of the JavaScript
      runtime that the helpers call ([interpolate], [interpolateColor],
      [Number.parseFloat], number-to-text conversion) and the functions of
      this package defined in other files ([flattenStyle],
      [exhaustiveCheck]) are the fields of a [Runtime] interface; what is
      proved holds for every runtime, or for every runtime with a stated
      law, and [refRuntime] is one concrete runtime;
    - a hook cell (shared value, state, memo) is explicit state threaded
      from one render to the next. *)

From Stdlib Require Import List String Ascii Bool Arith ZArith NArith Lia.
From Stdlib Require Import QArith Qcanon Qround DecimalString.
From Stdlib Require PrimFloat FloatOps SpecFloat Uint63.
Import ListNotations.

Set Warnings "-register-all".

Local Close Scope Qc_scope.
Local Close Scope Q_scope.
Local Open Scope nat_scope.
Local Open Scope string_scope.
Local Open Scope list_scope.

(* ================================================================== *)
(** ** Numbers and values *)

Inductive num : Type :=
| NaN
| Fin (q : Qc).

Definition zero : num := Fin 0%Qc.
Definition one : num := Fin 1%Qc.

Definition num_of_Z (z : Z) : num := Fin (Q2Qc (inject_Z z)).

(** [a === b] on numbers: [NaN] differs from everything. *)
Definition num_eqb (a b : num) : bool :=
  match a, b with
  | Fin x, Fin y => Qeq_bool x y
  | _, _ => false
  end.

Inductive value : Type :=
| VUndefined
| VNull
| VBool (b : bool)
| VNum (n : num)
| VStr (s : string)
| VArr (items : list value)
| VObj (fields : list (string * value)).

(** An object: own enumerable string-keyed properties, in property order. *)
Definition object := list (string * value).
Definition Style := object.

Definition typeofNumber (v : value) : bool :=
  match v with VNum _ => true | _ => false end.

Definition typeofString (v : value) : bool :=
  match v with VStr _ => true | _ => false end.

(** [v === 0] *)
Definition strictZero (v : value) : bool :=
  match v with VNum n => num_eqb n zero | _ => false end.

(** Truthiness, as [if (v)] and [!v] test it. *)
Definition truthy (v : value) : bool :=
  match v with
  | VUndefined | VNull => false
  | VBool b => b
  | VNum NaN => false
  | VNum (Fin q) => negb (Qeq_bool q 0)
  | VStr s => negb (String.eqb s "")
  | VArr _ | VObj _ => true
  end.

(* ================================================================== *)
(** ** The unit pattern [/[a-z%]+$/] *)

Definition isUnitChar (c : ascii) : bool :=
  let n := nat_of_ascii c in
  ((97 <=? n) && (n <=? 122))%nat || (n =? 37)%nat.

Fixpoint takeWhile {A} (f : A -> bool) (l : list A) : list A :=
  match l with
  | [] => []
  | x :: r => if f x then x :: takeWhile f r else []
  end.

(** The text matched by [/[a-z%]+$/]: the scan tries every start position
    from the left, and a start position matches when everything from it to
    the end of the text is in the class; so the match is the longest
    trailing run of class characters, and there is none when that run is
    empty. *)
Definition trailingRun (s : string) : list ascii :=
  rev (takeWhile isUnitChar (rev (list_ascii_of_string s))).

Definition matchUnit (s : string) : option string :=
  match trailingRun s with
  | [] => None
  | run => Some (string_of_list_ascii run)
  end.

(** [from.match(/[a-z%]+$/)?.[0]] for a value known to be a string. *)
Definition matchUnitOf (v : value) : option string :=
  match v with VStr s => matchUnit s | _ => None end.

(* ================================================================== *)
(** ** Objects *)

Fixpoint getProp (o : object) (k : string) : value :=
  match o with
  | [] => VUndefined
  | (k', v) :: r => if String.eqb k k' then v else getProp r k
  end.

Fixpoint hasProp (o : object) (k : string) : bool :=
  match o with
  | [] => false
  | (k', _) :: r => String.eqb k k' || hasProp r k
  end.

Definition isDigit (c : ascii) : bool :=
  let n := nat_of_ascii c in ((48 <=? n) && (n <=? 57))%nat.

Fixpoint digitsValue (cs : list ascii) (acc : N) : option N :=
  match cs with
  | [] => Some acc
  | c :: r =>
      if isDigit c
      then digitsValue r (acc * 10 + (N_of_ascii c - 48))%N
      else None
  end.

(** A key is an array index when it is the canonical decimal text of an
    integer below 2^32 - 1; such keys come first, in ascending order, in
    the property order of an object. *)
Definition arrayIndex (k : string) : option N :=
  match list_ascii_of_string k with
  | [] => None
  | c :: r =>
      if (nat_of_ascii c =? 48)%nat && negb (List.length r =? 0)%nat then None
      else match digitsValue (c :: r) 0%N with
           | Some n => if (n <? 4294967295)%N then Some n else None
           | None => None
           end
  end.

Fixpoint insertIndexed (o : object) (n : N) (k : string) (v : value) : object :=
  match o with
  | [] => [(k, v)]
  | (k', v') :: r =>
      match arrayIndex k' with
      | Some m => if (m <? n)%N then (k', v') :: insertIndexed r n k v
                  else (k, v) :: (k', v') :: r
      | None => (k, v) :: (k', v') :: r
      end
  end.

Fixpoint replaceProp (o : object) (k : string) (v : value) : object :=
  match o with
  | [] => []
  | (k', v') :: r =>
      if String.eqb k k' then (k', v) :: r else (k', v') :: replaceProp r k v
  end.

(** [o[k] = v] *)
Definition setProp (o : object) (k : string) (v : value) : object :=
  if hasProp o k then replaceProp o k v
  else match arrayIndex k with
       | Some n => insertIndexed o n k v
       | None => o ++ [(k, v)]
       end.

Definition indexKey (i : nat) : string := NilZero.string_of_uint (Nat.to_uint i).

Fixpoint indexed {A} (i : nat) (l : list A) : list (string * A) :=
  match l with
  | [] => []
  | x :: r => (indexKey i, x) :: indexed (S i) r
  end.

Definition chars (s : string) : list value :=
  map (fun c => VStr (String c EmptyString)) (list_ascii_of_string s).

(** The own enumerable properties a source contributes to [Object.assign]:
    those of an object, the elements of an array and the characters of a
    text under their indices, nothing for the other values. *)
Definition ownEntries (source : value) : list (string * value) :=
  match source with
  | VObj fields => fields
  | VArr items => indexed 0 items
  | VStr s => indexed 0 (chars s)
  | _ => []
  end.

Definition assignFrom (target : object) (source : value) : object :=
  fold_left (fun t kv => setProp t (fst kv) (snd kv)) (ownEntries source) target.

(** [Object.assign(target, ...sources)] *)
Definition objectAssign (target : object) (sources : list value) : object :=
  fold_left assignFrom sources target.

(** [Object.keys(o)] *)
Definition objectKeys (o : object) : list string := map fst o.

(** [...v] in an argument list: the elements of an array, the characters
    of a text; [None] stands for the TypeError on a value that is not
    iterable. *)
Definition spread (v : value) : option (list value) :=
  match v with
  | VArr items => Some items
  | VStr s => Some (chars s)
  | _ => None
  end.

(** [v ?? d] *)
Definition nullish (v d : value) : value :=
  match v with VUndefined | VNull => d | _ => v end.

(** [Array.from(new Set(keys))]: first occurrences, in order. *)
Fixpoint dedup (seen keys : list string) : list string :=
  match keys with
  | [] => []
  | k :: r =>
      if existsb (String.eqb k) seen then dedup seen r
      else k :: dedup (k :: seen) r
  end.

(* ================================================================== *)
(** ** Number operations of the frame computation *)

Definition isInteger (q : Qc) : bool := Qeq_bool q (inject_Z (Qfloor q)).

(** [Math.floor], [Math.ceil] and [p % 1] (the remainder has the sign of [p]). *)
Definition mathFloor (n : num) : num :=
  match n with NaN => NaN | Fin q => num_of_Z (Qfloor q) end.

Definition mathCeil (n : num) : num :=
  match n with NaN => NaN | Fin q => num_of_Z (Qceiling q) end.

Definition mod1 (n : num) : num :=
  match n with
  | NaN => NaN
  | Fin q =>
      if Qle_bool 0 q
      then Fin (q - Q2Qc (inject_Z (Qfloor q)))%Qc
      else Fin (q - Q2Qc (inject_Z (Qceiling q)))%Qc
  end.

(** [array[n]] for a number [n]: an element when [n] is an integer within
    the array, [undefined] otherwise. *)
Definition at_ {A} (array : list A) (n : num) : option A :=
  match n with
  | NaN => None
  | Fin q =>
      if isInteger q && (0 <=? Qfloor q)%Z
      then nth_error array (Z.to_nat (Qfloor q))
      else None
  end.

(** [array ? array[index % array.length] : defaultValue]; [None] is the
    [undefined] read from an empty array. *)
Definition getValue {T} (array : option (list T)) (index : nat) (defaultValue : T)
  : option T :=
  match array with
  | Some a =>
      match List.length a with
      | O => None
      | S _ => nth_error a (index mod List.length a)
      end
  | None => Some defaultValue
  end.

(* ================================================================== *)
(** ** Style metadata, keyframes and the schedule *)

(** lightningcss [Time]: [{ type: "seconds" | "milliseconds", value }]. *)
Record Time := { time_type : string; time_value : num }.

(** lightningcss [EasingFunction]: its [type] tag and its other fields. *)
Record EasingFunction := { easing_type : string; easing_fields : object }.

(** The easings of reanimated's [Easing] namespace. *)
Inductive Easing : Type :=
| Easing_linear
| Easing_ease
| Easing_bezier (x1 y1 x2 y2 : num).

(** An entry of [animations.name]: [{ type: "none" }] or a named animation. *)
Inductive AnimationName : Type :=
| NameNone
| NameIdent (value : string).

Record FlattenStyleOptions := {
  variables : object;
  interaction : value;
  containers : object;
  ch : option num;
  cw : option num
}.

(** A frame of an extracted animation, and the animation. *)
Record ExtractedFrame := { selector : num; extracted_style : value }.

(** [ref] is the identity of the object, which [useMemo] compares. *)
Record ExtractedAnimation := { ref : nat; frames_of : list ExtractedFrame }.

Definition defaultAnimation : ExtractedAnimation := {| ref := 0; frames_of := [] |}.

(** A frame with its style flattened; [{ style: {} }] has no selector. *)
Record Keyframe := { kf_selector : option num; kf_style : Style }.

Record AnimationSchema := { frames : list Keyframe }.

Record TransitionSchema := { prop : string; output : value * value }.

Record Schema := {
  animations : list AnimationSchema;
  transitions : list TransitionSchema
}.

Record AnimationsMeta := { name : option (list AnimationName) }.

Record TransitionMeta := {
  property : option (list string);
  duration : option (list Time)
}.

(** What [styleMetaMap.get(style)] holds. *)
Record StyleMeta := {
  meta_animations : option AnimationsMeta;
  meta_transition : option TransitionMeta
}.

(** [withTiming(toValue, { duration })] *)
Record Timing := { toValue : num; timing_duration : num }.

(** A shared value: the number it holds and the timing the driver was last
    told to run on it. *)
Record Cell := { current : num; driver : option Timing }.

(** [useSharedValue(0)] on the first render. *)
Definition freshCell : Cell := {| current := zero; driver := None |}.

(** [cell.value = n] *)
Definition assign (c : Cell) (n : num) : Cell :=
  {| current := n; driver := None |}.

(** [cell.value = withTiming(toValue, { duration })] *)
Definition drive (c : Cell) (t : Timing) : Cell :=
  {| current := current c; driver := Some t |}.

(** [cell.value = 0; cell.value = withTiming(1, { duration })] *)
Definition restart (c : Cell) (d : num) : Cell :=
  drive (assign c zero) {| toValue := one; timing_duration := d |}.

(** The value of a hook at position [index]: the stored one, or the
    initial one on the render that creates it. *)
Definition hookAt {A} (stored : list A) (index : nat) (initial : A) : A :=
  nth index stored initial.

(** The interface to what lies outside the two files. *)
Class Runtime := {
  (** [interpolate(progress, [0, 1], [from, to])] of react-native-reanimated *)
  interpolate : num -> num -> num -> num;
  (** [interpolateColor(progress, [0, 1], [from, to])] *)
  interpolateColor : num -> value -> value -> value;
  (** [Number.parseFloat] on a text *)
  parseFloat : string -> num;
  (** the text of a number, as a template literal and [toString()] give it *)
  numToString : num -> string;
  (** [flattenStyle] of ./flattenStyle *)
  flattenStyle : value -> FlattenStyleOptions -> Style;
  (** [exhaustiveCheck] of ../../css-to-rn/utils: [Some e] when it throws [e] *)
  exhaustiveCheck : EasingFunction -> option string
}.

Inductive Outcome (A : Type) : Type :=
| Returned (a : A)
| Threw (error : string).
Arguments Returned {A} a.
Arguments Threw {A} error.

Definition TypeError : string := "TypeError".

(* ================================================================== *)
(** ** The interpolation helpers *)

Section Helpers.
Context {R : Runtime}.

(** [Number.parseFloat(v)] and [v.toString()] where [v] is a string or a
    number, the only places the helpers use them. *)
Definition textOf (v : value) : string :=
  match v with
  | VStr s => s
  | VNum n => numToString n
  | _ => ""
  end.

Definition numberOf (v : value) : num :=
  match v with
  | VNum n => n
  | _ => NaN
  end.

(** animations.tsx, [interpolation]. *)
Definition interpolation (progress : num) (from to : value) (isColor : bool)
  : value :=
  if isColor then
    interpolateColor progress from to
  else if typeofNumber from && typeofNumber to then
    VNum (interpolate progress (numberOf from) (numberOf to))
  else if (typeofString from && typeofString to)
          || (typeofString from && strictZero to) then
    match matchUnitOf from with
    | Some unit =>
        VStr (numToString
                (interpolate progress
                   (parseFloat (textOf from))
                   (parseFloat (textOf to)))
              ++ unit)
    | None => VNum zero
    end
  else if typeofString to && strictZero from then
    match matchUnitOf to with
    | Some unit =>
        VStr (numToString
                (interpolate progress (numberOf from) (parseFloat (textOf to)))
              ++ unit)
    | None => VNum zero
    end
  else VNum zero.

(** A parameter with the default [= 0]: [undefined] becomes [0]. *)
Definition orZero (v : value) : value :=
  match v with VUndefined => VNum zero | _ => v end.

(** animations_old.tsx, [interpolateWithUnits]. *)
Definition interpolateWithUnits (progress : num) (from0 to0 : value) : value :=
  let from := orZero from0 in
  let to := orZero to0 in
  if typeofNumber from && typeofNumber to then
    VNum (interpolate progress (numberOf from) (numberOf to))
  else if (typeofString from && typeofString to)
          || (typeofString from && strictZero to) then
    match matchUnitOf from with
    | Some unit =>
        VStr (numToString
                (interpolate progress
                   (parseFloat (textOf from))
                   (parseFloat (textOf to)))
              ++ unit)
    | None => VNum zero
    end
  else if typeofString to && strictZero from then
    match matchUnitOf to with
    | Some unit =>
        VStr (numToString
                (interpolate progress (numberOf from) (parseFloat (textOf to)))
              ++ unit)
    | None => VNum zero
    end
  else VNum zero.

(** [v.toString()] for a value that is neither [undefined] nor [null]. *)
Fixpoint jsToString (v : value) : string :=
  match v with
  | VUndefined => "undefined"
  | VNull => "null"
  | VBool true => "true"
  | VBool false => "false"
  | VNum n => numToString n
  | VStr s => s
  | VArr items =>
      (fix join (l : list value) : string :=
         match l with
         | [] => ""
         | x :: r =>
             let e := match x with
                      | VUndefined | VNull => ""
                      | _ => jsToString x
                      end in
             match r with
             | [] => e
             | _ :: _ => (e ++ "," ++ join r)%string
             end
         end) items
  | VObj _ => "[object Object]"
  end.

End Helpers.

(** animations.tsx, [isColorProp]. *)
Definition isColorProp (prop : string) : bool :=
  String.eqb prop "backgroundColor"
  || String.eqb prop "borderBottomColor"
  || String.eqb prop "borderLeftColor"
  || String.eqb prop "borderRightColor"
  || String.eqb prop "borderTopColor"
  || String.eqb prop "color".

(** animations.tsx, [defaultTransform]. *)
Definition defaultTransform : object :=
  [ ("perspective", VNum zero);
    ("translateX", VNum zero);
    ("translateY", VNum zero);
    ("scaleX", VNum zero);
    ("scaleY", VNum zero);
    ("rotate", VNum zero);
    ("rotateX", VStr "0deg");
    ("rotateY", VStr "0deg");
    ("rotateZ", VStr "0deg");
    ("skewX", VNum zero);
    ("skewY", VNum zero);
    ("scale", VNum zero) ].

(** animations_old.tsx, [defaultTransform]. *)
Definition defaultTransformOld : object :=
  [ ("perspective", VNum zero);
    ("translateX", VNum zero);
    ("translateY", VNum zero);
    ("scaleX", VNum zero);
    ("scaleY", VNum zero);
    ("rotate", VNum zero);
    ("rotateX", VNum zero);
    ("rotateY", VNum zero);
    ("rotateZ", VNum zero);
    ("skewX", VNum zero);
    ("skewY", VNum zero);
    ("scale", VNum zero) ].

(* ================================================================== *)
(** ** animations.tsx: the schedule builder [useSchema] *)

(** The hooks of one [useSchema] call site, from one render to the next:
    the shared [schema], the progress cells handed out as [dependencies],
    and, per animation, what [useMemo] keeps (its dependency [keyframes]
    and the frames computed for it). *)
Record SchemaHooks := {
  schema : Schema;
  dependencies_animations : list Cell;
  dependencies_transitions : list Cell;
  memo_frames : list (option (ExtractedAnimation * list Keyframe))
}.

(** The hooks before the first render: [useSharedValue({ animations: [],
    transitions: [] })] and nothing else yet. *)
Definition firstRender : SchemaHooks :=
  {| schema := {| animations := []; transitions := [] |};
     dependencies_animations := [];
     dependencies_transitions := [];
     memo_frames := [] |}.

(** What one turn of a loop of [useSchema] leaves behind. *)
Record AnimationSlot := {
  slot_schema : AnimationSchema;
  slot_progress : Cell;
  slot_memo : option (ExtractedAnimation * list Keyframe);
  slot_updated : bool
}.

Record TransitionSlot := {
  tslot_schema : option TransitionSchema;
  tslot_progress : Cell;
  tslot_updated : bool
}.

(** [const { name: animationNames = [] } = animations] and
    [const { property: transitions = [] } = transition], where
    [animations] and [transition] default to [{}]. *)
Definition animationNamesOf (meta : option StyleMeta) : list AnimationName :=
  match meta with
  | Some m =>
      match meta_animations m with
      | Some a => match name a with Some l => l | None => [] end
      | None => []
      end
  | None => []
  end.

Definition transitionsOf (meta : option StyleMeta) : list string :=
  match meta with
  | Some m =>
      match meta_transition m with
      | Some t => match property t with Some l => l | None => [] end
      | None => []
      end
  | None => []
  end.

Section Schedule.
Context {R : Runtime}.
Variable animationMap : string -> option ExtractedAnimation.

(** Lines 108-113: the keyframes of a name. *)
Definition keyframesFor (name : AnimationName) : ExtractedAnimation :=
  match name with
  | NameNone => defaultAnimation
  | NameIdent value =>
      match animationMap value with
      | Some keyframes => keyframes
      | None => defaultAnimation
      end
  end.

(** [{ ...frame, style: flattenStyle(frame.style, options) }] *)
Definition flattenFrame (options : FlattenStyleOptions) (frame : ExtractedFrame)
  : Keyframe :=
  {| kf_selector := Some (selector frame);
     kf_style := flattenStyle (extracted_style frame) options |}.

(** One turn of the animations loop. [useMemo(..., [keyframes])] runs its
    function on the first render and when [keyframes] is another object
    than on the previous render. *)
Definition animationSlot (options : FlattenStyleOptions) (name : AnimationName)
    (progress : Cell) (memo : option (ExtractedAnimation * list Keyframe))
  : AnimationSlot :=
  let keyframes := keyframesFor name in
  let recomputed :=
    let frames := map (flattenFrame options) (frames_of keyframes) in
    {| slot_schema := {| frames := frames |};
       slot_progress := restart progress (num_of_Z 10000);
       slot_memo := Some (keyframes, frames);
       slot_updated := true |} in
  match memo with
  | Some (deps, frames) =>
      if (ref deps =? ref keyframes)%nat
      then {| slot_schema := {| frames := frames |};
              slot_progress := progress;
              slot_memo := memo;
              slot_updated := false |}
      else recomputed
  | None => recomputed
  end.

(** The animations loop; [index] runs over [animationNames], so
    [getValue(animationNames, index, ...)] is the element at [index]. *)
Fixpoint animationsLoop (options : FlattenStyleOptions) (hooks : SchemaHooks)
    (names : list AnimationName) (index : nat) : list AnimationSlot :=
  match names with
  | [] => []
  | name :: rest =>
      animationSlot options name
        (hookAt (dependencies_animations hooks) index freshCell)
        (hookAt (memo_frames hooks) index None)
      :: animationsLoop options hooks rest (S index)
  end.

(** One turn of the transitions loop. *)
Definition transitionSlot (style : Style) (hooks : SchemaHooks)
    (index : nat) (prop : string) : TransitionSlot :=
  let value := getProp style prop in
  let progress := hookAt (dependencies_transitions hooks) index freshCell in
  match nth_error (transitions (schema hooks)) index with
  | None =>
      match value with
      | VUndefined | VNull =>
          {| tslot_schema := None;
             tslot_progress := progress;
             tslot_updated := false |}
      | _ =>
          {| tslot_schema := Some {| prop := prop; output := (value, value) |};
             tslot_progress := progress;
             tslot_updated := true |}
      end
  | Some previous =>
      {| tslot_schema :=
           Some {| prop := prop; output := (snd (output previous), value) |};
         tslot_progress := restart progress (num_of_Z 1000);
         tslot_updated := true |}
  end.

Fixpoint transitionsLoop (style : Style) (hooks : SchemaHooks)
    (props : list string) (index : nat) : list TransitionSlot :=
  match props with
  | [] => []
  | prop :: rest =>
      transitionSlot style hooks index prop
      :: transitionsLoop style hooks rest (S index)
  end.

(** The pushes onto [transitionSchemas], in order. *)
Fixpoint pushed (slots : list TransitionSlot) : list TransitionSchema :=
  match slots with
  | [] => []
  | slot :: rest =>
      match tslot_schema slot with
      | Some s => s :: pushed rest
      | None => pushed rest
      end
  end.

(** [useSchema(style, options)], with the entry of [styleMetaMap] for
    [style]; the result is the hooks after the render, which hold what
    the call returns ([schema] and [dependencies]). *)
Definition useSchema (hooks : SchemaHooks) (style : Style)
    (meta : option StyleMeta) (options : FlattenStyleOptions) : SchemaHooks :=
  let animationsSlots :=
    animationsLoop options hooks (animationNamesOf meta) 0 in
  let transitionSlots :=
    transitionsLoop style hooks (transitionsOf meta) 0 in
  let updated :=
    existsb slot_updated animationsSlots
    || existsb tslot_updated transitionSlots in
  {| schema :=
       if updated
       then {| animations := map slot_schema animationsSlots;
               transitions := pushed transitionSlots |}
       else schema hooks;
     dependencies_animations := map slot_progress animationsSlots;
     dependencies_transitions := map tslot_progress transitionSlots;
     memo_frames := map slot_memo animationsSlots |}.

End Schedule.

(* ================================================================== *)
(** ** animations.tsx: the per-frame computation of [useAnimated] *)

(** How one turn of the animations loop of the worklet ends. *)
Inductive Step : Type :=
| Continue (result : object)
| Return (returned : Style)
| Raise (error : string).

Section Worklet.
Context {R : Runtime}.

(** [result.fontWeight = result.fontWeight?.toString()] *)
Definition coerceFontWeight (result : object) : object :=
  setProp result "fontWeight"
    (match getProp result "fontWeight" with
     | VUndefined | VNull => VUndefined
     | v => VStr (jsToString v)
     end).

(** Lines 180-187, with [progresses] the values of
    [dependencies.transitions]. *)
Fixpoint worklet_transitions (transitions : list TransitionSchema)
    (progresses : list num) (index : nat) (result : object) : object :=
  match progresses with
  | [] => result
  | progress :: rest =>
      match nth_error transitions index with
      | None => worklet_transitions transitions rest (S index) result
      | Some t =>
          worklet_transitions transitions rest (S index)
            (setProp result (prop t)
               (interpolation progress (fst (output t)) (snd (output t))
                  (isColorProp (prop t))))
      end
  end.

(** Lines 212-239: one entry of [Object.entries(toStyles)]; [None] is the
    TypeError of spreading a value that is not iterable. *)
Definition worklet_entry (style : Style) (frameProgress : num)
    (fromStyles : Style) (result : object) (entry : string * value)
  : option object :=
  let (key, toValue) := entry in
  let fromValue := getProp fromStyles key in
  match spread (nullish (getProp style "transform") (VArr [])) with
  | None => None
  | Some styleTransform =>
      let fromTransform :=
        objectAssign [] (VObj defaultTransform :: styleTransform ++ [fromValue]) in
      match spread toValue with
      | None => None
      | Some toItems =>
          let toTransform := objectAssign [] toItems in
          let transformKeys := objectKeys toTransform in
          Some (setProp result "transform"
                  (VArr (map (fun k =>
                                VObj [(k, interpolation frameProgress
                                            (getProp fromTransform k)
                                            (getProp toTransform k)
                                            (isColorProp k))])
                             transformKeys)))
      end
  end.

Fixpoint worklet_entries (style : Style) (frameProgress : num)
    (fromStyles : Style) (entries : list (string * value)) (result : object)
  : option object :=
  match entries with
  | [] => Some result
  | entry :: rest =>
      match worklet_entry style frameProgress fromStyles result entry with
      | Some result' => worklet_entries style frameProgress fromStyles rest result'
      | None => None
      end
  end.

(** [{ frames = [{ style: {} }] } = animations[index] || {}] *)
Definition framesAt (animations : list AnimationSchema) (index : nat)
  : list Keyframe :=
  match nth_error animations index with
  | Some a => frames a
  | None => [ {| kf_selector := None; kf_style := [] |} ]
  end.

(** Lines 190-240: one turn of the animations loop. *)
Definition worklet_animation (style : Style) (animations : list AnimationSchema)
    (index : nat) (progress : num) (result : object) : Step :=
  let frames := framesAt animations index in
  let frameProgress := mod1 progress in
  if num_eqb progress zero then
    match nth_error frames 0 with
    | Some frame => Return (kf_style frame)
    | None => Raise TypeError
    end
  else if num_eqb progress (num_of_Z (Z.of_nat (List.length frames) - 1)) then
    match at_ frames (num_of_Z (Z.of_nat (List.length frames) - 1)) with
    | Some frame => Return (kf_style frame)
    | None => Raise TypeError
    end
  else
    match at_ frames (mathFloor progress), at_ frames (mathCeil progress) with
    | Some fromFrame, Some toFrame =>
        match worklet_entries style frameProgress (kf_style fromFrame)
                (kf_style toFrame) result with
        | Some result' => Continue result'
        | None => Raise TypeError
        end
    | _, _ => Continue result
    end.

Fixpoint worklet_animations (style : Style) (animations : list AnimationSchema)
    (progresses : list num) (index : nat) (result : object) : Outcome Style :=
  match progresses with
  | [] => Returned result
  | progress :: rest =>
      match worklet_animation style animations index progress result with
      | Continue result' =>
          worklet_animations style animations rest (S index) result'
      | Return returned => Returned returned
      | Raise error => Threw error
      end
  end.

(** The function [useAnimated] hands to [useAnimatedStyle], run on the
    current [schema.value] and the current values of the dependencies. *)
Definition useAnimated_worklet (style : Style) (schema : Schema)
    (transitionProgress animationProgress : list num) : Outcome Style :=
  let result := coerceFontWeight style in
  let result := worklet_transitions (transitions schema) transitionProgress 0 result in
  worklet_animations style (animations schema) animationProgress 0 result.

End Worklet.

(* ================================================================== *)
(** ** animations_old.tsx: [useAnimations] *)

Section OldAnimations.
Context {R : Runtime}.
Variable animationMap : string -> option ExtractedAnimation.

(** Lines 147-151: [{ ...options, ch: ..., cw: ... }]. *)
Definition flattenStyleOptionsOld (style : Style) (options : FlattenStyleOptions)
  : FlattenStyleOptions :=
  {| variables := variables options;
     interaction := interaction options;
     containers := containers options;
     ch := match getProp style "height" with VNum n => Some n | _ => None end;
     cw := match getProp style "width" with VNum n => Some n | _ => None end |}.

(** Lines 141-159: the keyframes of a name; [None] when the loop skips
    the name ([continue]). *)
Definition useAnimations_keyframes (style : Style) (options : FlattenStyleOptions)
    (name : AnimationName) : option (list Keyframe) :=
  match name with
  | NameNone => None
  | NameIdent value =>
      let extracted :=
        match animationMap value with
        | Some a => a
        | None => defaultAnimation
        end in
      Some (map (fun frame =>
                   {| kf_selector := Some (selector frame);
                      kf_style := flattenStyle (extracted_style frame)
                                    (flattenStyleOptionsOld style options) |})
                (frames_of extracted))
  end.

(** Lines 292-299: the search through the previous styles; it reads
    [fromStyles[key]] on every turn. *)
Fixpoint searchPrevious (fromStyles : Style) (key : string) (turns : nat)
    (fromValue : value) : value :=
  match turns with
  | O => fromValue
  | S turns' =>
      if truthy (getProp fromStyles key)
      then getProp fromStyles key
      else searchPrevious fromStyles key turns' fromValue
  end.

(** The number of turns of [for (index = from; index >= 0; index--)]. *)
Definition turnsFrom (from : num) : nat :=
  match from with
  | NaN => O
  | Fin q => Z.to_nat (Qfloor q + 1)
  end.

(** Lines 301-339: the [transform] entry; [None] is a TypeError. *)
Definition oldTransform (frameProgress : num) (style : object)
    (fromValue toValue : value) : option value :=
  match spread (nullish fromValue (VArr [])), spread toValue with
  | Some fromItems, Some toItems =>
      let fromTransform := objectAssign [] fromItems in
      let toTransform := objectAssign [] toItems in
      let transformKeys :=
        dedup [] (objectKeys fromTransform ++ objectKeys toTransform) in
      match spread (nullish (getProp style "transform") (VArr [])) with
      | Some styleTransform =>
          let fromTransform :=
            objectAssign []
              (VObj defaultTransformOld :: styleTransform ++ [VObj fromTransform]) in
          let toTransform :=
            objectAssign [] [VObj defaultTransformOld; VObj toTransform] in
          Some (VArr (map (fun k =>
                             VObj [(k, interpolateWithUnits frameProgress
                                         (getProp fromTransform k)
                                         (getProp toTransform k))])
                          transformKeys))
      | None => None
      end
  | _, _ => None
  end.

(** Lines 285-347: one entry of [Object.entries(toStyles)]. *)
Definition oldEntry (frameProgress from : num) (fromStyles : Style)
    (style : object) (entry : string * value) : option object :=
  let (key, toValue) := entry in
  let fromValue := getProp fromStyles key in
  let fromValue :=
    match fromValue with
    | VUndefined => searchPrevious fromStyles key (turnsFrom from) fromValue
    | _ => fromValue
    end in
  if String.eqb key "transform" then
    match oldTransform frameProgress style fromValue toValue with
    | Some v => Some (setProp style key v)
    | None => None
    end
  else
    Some (setProp style key (interpolateWithUnits frameProgress fromValue toValue)).

Fixpoint oldEntries (frameProgress from : num) (fromStyles : Style)
    (entries : list (string * value)) (style : object) : option object :=
  match entries with
  | [] => Some style
  | entry :: rest =>
      match oldEntry frameProgress from fromStyles style entry with
      | Some style' => oldEntries frameProgress from fromStyles rest style'
      | None => None
      end
  end.

(** Lines 228-350: the function handed to [useAnimatedStyle], run on the
    current value of [progress]. *)
Definition useAnimations_worklet (keyframes : list Keyframe) (progress : num)
  : Outcome Style :=
  let frameProgress := mod1 progress in
  if num_eqb progress zero then
    match nth_error keyframes 0 with
    | Some frame => Returned (kf_style frame)
    | None => Threw TypeError
    end
  else if num_eqb progress (num_of_Z (Z.of_nat (List.length keyframes) - 1)) then
    match at_ keyframes (num_of_Z (Z.of_nat (List.length keyframes) - 1)) with
    | Some frame => Returned (kf_style frame)
    | None => Threw TypeError
    end
  else
    let from := mathFloor progress in
    match at_ keyframes from with
    | None => Threw TypeError
    | Some fromFrame =>
        match at_ keyframes (mathCeil progress) with
        | None => Threw TypeError
        | Some toFrame =>
            match oldEntries frameProgress from (kf_style fromFrame)
                    (kf_style toFrame) [] with
            | Some style => Returned style
            | None => Threw TypeError
            end
        end
    end.

End OldAnimations.

(* ================================================================== *)
(** ** animations_old.tsx: [useTransitions], [timeToMS], [timingToEasing] *)

Definition numericTransitions : list string :=
  [ "borderBottomLeftRadius"; "borderBottomRightRadius"; "borderBottomWidth";
    "borderLeftWidth"; "borderRadius"; "borderRightWidth"; "borderTopWidth";
    "borderWidth"; "bottom"; "flex"; "flexBasis"; "flexGrow"; "flexShrink";
    "fontSize"; "fontWeight"; "gap"; "height"; "left"; "letterSpacing";
    "lineHeight"; "margin"; "marginBottom"; "marginLeft"; "marginRight";
    "marginTop"; "maxHeight"; "maxWidth"; "minHeight"; "minWidth";
    "objectPosition"; "opacity"; "padding"; "paddingBottom"; "paddingLeft";
    "paddingRight"; "paddingTop"; "right"; "textDecoration"; "top";
    "transformOrigin"; "verticalAlign"; "visibility"; "width"; "wordSpacing";
    "zIndex" ].

Definition colorTransitions : list string :=
  [ "backgroundColor"; "borderBottomColor"; "borderLeftColor";
    "borderRightColor"; "borderTopColor"; "color" ].

Definition setHas (set : list string) (p : string) : bool :=
  existsb (String.eqb p) set.

(** Lines 366-375: the initial state of [animatedTyped]. *)
Definition typedProperties (properties : list string)
  : list (string * option string) :=
  map (fun p =>
         (p, if setHas numericTransitions p then Some "numeric"
             else if setHas colorTransitions p then Some "color"
             else None))
      properties.

(** The hooks of one [useTransitions] call site: the state [animatedTyped]
    ([None] before the first render) and, per property, the shared values
    [output] and [progress]. *)
Record TransitionHooks := {
  animatedTyped : option (list (string * option string));
  outputs : list (option (value * value));
  progresses : list Cell
}.

Definition beforeFirstRender : TransitionHooks :=
  {| animatedTyped := None; outputs := []; progresses := [] |}.

Definition defaultDuration : Time :=
  {| time_type := "milliseconds"; time_value := zero |}.

(** [const { duration: durations = [...] } = styleMetaMap.get(style)?.transition ?? {}] *)
Definition durationsOf (meta : option StyleMeta) : list Time :=
  match meta with
  | Some m =>
      match meta_transition m with
      | Some t => match duration t with Some l => l | None => [defaultDuration] end
      | None => [defaultDuration]
      end
  | None => [defaultDuration]
  end.

(** Lines 391-413: one turn of the loop; [None] is the TypeError of
    reading [.value] of [undefined]. *)
Definition transitionTurn (style : Style) (durations : list Time)
    (hooks : TransitionHooks) (index : nat) (prop : string)
  : option (option (value * value) * Cell) :=
  let value := getProp style prop in
  let output := hookAt (outputs hooks) index None in
  let progress := hookAt (progresses hooks) index freshCell in
  match getValue (Some durations) index defaultDuration with
  | None => None
  | Some time =>
      let duration := time_value time in
      match output with
      | None =>
          match value with
          | VUndefined => Some (None, progress)
          | _ => Some (Some (value, value), progress)
          end
      | Some previous =>
          Some (Some (snd previous, value), restart progress duration)
      end
  end.

Fixpoint transitionTurns (style : Style) (durations : list Time)
    (hooks : TransitionHooks) (properties : list string) (index : nat)
  : option (list (option (value * value) * Cell)) :=
  match properties with
  | [] => Some []
  | prop :: rest =>
      match transitionTurn style durations hooks index prop with
      | None => None
      | Some turn =>
          match transitionTurns style durations hooks rest (S index) with
          | None => None
          | Some turns => Some (turn :: turns)
          end
      end
  end.

(** [useTransitions(style)] up to the call of [useAnimatedStyle], with the
    entry of [styleMetaMap] for [style] and the value of [__DEV__]. *)
Definition useTransitions (DEV : bool) (hooks : TransitionHooks) (style : Style)
    (meta : option StyleMeta) : Outcome TransitionHooks :=
  let durations := durationsOf meta in
  let properties := transitionsOf meta in
  let numOfProperties := List.length properties in
  let typed :=
    match animatedTyped hooks with
    | Some stored => stored
    | None => typedProperties properties
    end in
  if DEV && negb (numOfProperties =? List.length typed)%nat then
    Threw "Number of transition properties must match between renders"
  else
    match transitionTurns style durations hooks properties 0 with
    | None => Threw TypeError
    | Some turns =>
        Returned {| animatedTyped := Some typed;
                    outputs := map fst turns;
                    progresses := map snd turns |}
    end.

Definition timeToMS (time : Time) : num :=
  if String.eqb (time_type time) "milliseconds" then time_value time
  else match time_value time with
       | NaN => NaN
       | Fin q => Fin (q * Q2Qc (inject_Z 1000))%Qc
       end.

Section Timing.
Context {R : Runtime}.

Definition timingToEasing (timingFunction : EasingFunction) : Outcome Easing :=
  let type := easing_type timingFunction in
  if String.eqb type "linear"
     || String.eqb type "ease"
     || String.eqb type "ease-in"
     || String.eqb type "ease-out"
     || String.eqb type "ease-in-out"
  then Returned Easing_linear
  else if String.eqb type "cubic-bezier" then Returned Easing_linear
  else if String.eqb type "steps" then Threw "Not supported"
  else match exhaustiveCheck timingFunction with
       | Some error => Threw error
       | None => Threw "Unknown timing function"
       end.

End Timing.

(* ================================================================== *)
(** ** Notions of the statements *)

(** Linear interpolation between [from] and [to] at [progress]. *)
Definition linear (progress from to : num) : num :=
  match progress, from, to with
  | Fin p, Fin a, Fin b => Fin (a + p * (b - a))%Qc
  | _, _, _ => NaN
  end.



(** A text with a trailing unit. *)
Definition unitSuffixed (v : value) : bool :=
  match matchUnitOf v with Some _ => true | None => false end.

(** The shapes of [(from, to, isColor)] that the helper handles: flagged as
    a colour, two numbers, a unit-suffixed [from] text with a text or the
    number 0, the number 0 with a unit-suffixed [to] text. *)
Definition handledShape (from to : value) (isColor : bool) : bool :=
  isColor
  || (typeofNumber from && typeofNumber to)
  || (unitSuffixed from && (typeofString to || strictZero to))
  || (strictZero from && unitSuffixed to).

(** A name for which there are no keyframes: [{ type: "none" }], or a name
    that the animation map does not hold. *)
Definition withoutKeyframes (animationMap : string -> option ExtractedAnimation)
    (name : AnimationName) : Prop :=
  match name with
  | NameNone => True
  | NameIdent value => animationMap value = None
  end.

(** What [useMemo] keeps for the default animation is its empty frames. *)
Definition memoSound (memo : option (ExtractedAnimation * list Keyframe)) : Prop :=
  match memo with
  | Some (deps, frames) => ref deps = ref defaultAnimation -> frames = []
  | None => True
  end.

(** The objects of the animation map are other objects than
    [defaultAnimation]. *)
Definition mapApartFromDefault (animationMap : string -> option ExtractedAnimation)
  : Prop :=
  forall value keyframes,
    animationMap value = Some keyframes -> ref keyframes <> ref defaultAnimation.

(** The timing functions that [timingToEasing] accepts. *)
Definition accepted (type : string) : bool :=
  setHas ["linear"; "ease"; "ease-in"; "ease-out"; "ease-in-out"; "cubic-bezier"]
         type.

(** The hook states of a [useTransitions] call site whose first render saw
    the transition properties [first]. *)
Inductive Rendered (first : list string) : TransitionHooks -> Prop :=
| Rendered_first DEV style meta hooks :
    transitionsOf meta = first ->
    useTransitions DEV beforeFirstRender style meta = Returned hooks ->
    Rendered first hooks
| Rendered_next DEV style meta hooks hooks' :
    Rendered first hooks ->
    useTransitions DEV hooks style meta = Returned hooks' ->
    Rendered first hooks'.

(** A turn of the animations loop of the per-frame computation that goes
    on to the next slot, whatever the result so far. *)
Definition passes {R : Runtime} (style : Style) (animations : list AnimationSchema)
    (index : nat) (progress : num) : Prop :=
  forall result, exists result',
    worklet_animation style animations index progress result = Continue result'.

(* ================================================================== *)
(** ** A reference runtime

    One concrete [Runtime], on which the statements are tried: linear
    interpolation, a decimal reader and printer, a flattening that keeps a
    flat style as it is, a colour primitive that answers with an [rgba()]
    text (colours are opaque to this development; the text is that of
    opaque black whatever the endpoints), and an [exhaustiveCheck] that
    does nothing at run time. *)

Fixpoint readDigits (cs : list ascii) (acc : N) (count : nat)
  : N * nat * list ascii :=
  match cs with
  | c :: r =>
      if isDigit c
      then readDigits r (acc * 10 + (N_of_ascii c - 48))%N (S count)
      else (acc, count, cs)
  | [] => (acc, count, [])
  end.

Fixpoint skipSpaces (cs : list ascii) : list ascii :=
  match cs with
  | c :: r => if (nat_of_ascii c =? 32)%nat then skipSpaces r else cs
  | [] => []
  end.

(** Sign, digits, and a fraction after a point; [NaN] without a digit. *)
Definition refParseFloat (s : string) : num :=
  let cs := skipSpaces (list_ascii_of_string s) in
  let '(negative, cs) :=
    match cs with
    | c :: r =>
        if (nat_of_ascii c =? 45)%nat then (true, r)
        else if (nat_of_ascii c =? 43)%nat then (false, r)
        else (false, cs)
    | [] => (false, cs)
    end in
  let '(whole, wholeCount, cs) := readDigits cs 0%N 0%nat in
  let '(fraction, fractionCount) :=
    match cs with
    | c :: r =>
        if (nat_of_ascii c =? 46)%nat
        then let '(f, n, _) := readDigits r 0%N 0%nat in (f, n)
        else (0%N, 0%nat)
    | [] => (0%N, 0%nat)
    end in
  if (wholeCount + fractionCount =? 0)%nat then NaN
  else
    let scale := (10 ^ N.of_nat fractionCount)%N in
    let q := Q2Qc (Z.of_N (whole * scale + fraction) # Pos.of_nat (N.to_nat scale)) in
    Fin (if negative then (- q)%Qc else q).

Fixpoint fractionDigits (fuel : nat) (remainder denominator : N) : string :=
  match fuel with
  | O => ""
  | S fuel' =>
      if (remainder =? 0)%N then ""
      else
        let x := (remainder * 10)%N in
        String (ascii_of_N (48 + x / denominator))
               (fractionDigits fuel' (x mod denominator)%N denominator)
  end.

(** Decimal text, with at most 17 digits after the point. *)
Definition refNumToString (n : num) : string :=
  match n with
  | NaN => "NaN"
  | Fin q =>
      let numerator := Z.abs_N (Qnum q) in
      let denominator := Npos (Qden q) in
      let whole := NilZero.string_of_uint (N.to_uint (numerator / denominator)) in
      let fraction := fractionDigits 17 (numerator mod denominator)%N denominator in
      ((if (Qnum q <? 0)%Z then "-" else "")
       ++ whole
       ++ (if String.eqb fraction "" then "" else "." ++ fraction))%string
  end.

Definition refFlattenStyle (style : value) (options : FlattenStyleOptions) : Style :=
  match style with
  | VObj fields => fields
  | _ => []
  end.

#[export] Instance refRuntime : Runtime := {|
  interpolate := linear;
  interpolateColor := fun _ _ _ => VStr "rgba(0, 0, 0, 1)";
  parseFloat := refParseFloat;
  numToString := refNumToString;
  flattenStyle := refFlattenStyle;
  exhaustiveCheck := fun _ => None
|}.

(** ** Binary64 arithmetic

    A runtime whose [interpolate] computes as reanimated's does on the
    range [0, 1] with the default extrapolation, in IEEE 754 binary64:
    [progress = (x - 0) / (1 - 0)], then
    [from + progress * (to - from)], every operation rounded to nearest. *)







Definition numerator (n : num) : Z :=
  match n with Fin q => Qnum q | NaN => 0%Z end.

Definition denominator (n : num) : positive :=
  match n with Fin q => Qden q | NaN => 1%positive end.

(** Numbers of the examples. *)
Definition vint (z : Z) : value := VNum (num_of_Z z).
Definition half : num := Fin (Q2Qc (1 # 2)).

Definition noOptions : FlattenStyleOptions :=
  {| variables := []; interaction := VUndefined; containers := [];
     ch := None; cw := None |}.

Definition noAnimations : string -> option ExtractedAnimation := fun _ => None.

(** ** Inputs of the examples *)

Definition milliseconds (z : Z) : Time :=
  {| time_type := "milliseconds"; time_value := num_of_Z z |}.

(** The metadata of [transition: <property> <ms>ms]. *)
Definition transitionOf (properties : list string) (ms : Z) : option StyleMeta :=
  Some {| meta_animations := None;
          meta_transition :=
            Some {| property := Some properties;
                    duration := Some [milliseconds ms] |} |}.

(** The metadata of [animation-name: <names>]. *)
Definition animationsOf (names : list AnimationName) : option StyleMeta :=
  Some {| meta_animations := Some {| name := Some names |};
          meta_transition := None |}.

Definition frame (style : Style) : Keyframe :=
  {| kf_selector := None; kf_style := style |}.

(** The hooks that a render leaves, for the renders of the examples (none
    of which throws). *)
Definition hooksOf (render : Outcome TransitionHooks) : TransitionHooks :=
  match render with
  | Returned hooks => hooks
  | Threw _ => beforeFirstRender
  end.

(** [cubic-bezier(0.42, 0, 1, 1)] *)
Definition x1_ : num := Fin (Q2Qc (42 # 100)).

Definition cubicBezier : EasingFunction :=
  {| easing_type := "cubic-bezier";
     easing_fields := [ ("x1", VNum x1_); ("y1", VNum zero);
                        ("x2", VNum one); ("y2", VNum one) ] |}.

(** Two animations of two frames each. *)
Definition fadeThenGrow : Schema :=
  {| animations :=
       [ {| frames := [ frame [("opacity", vint 0)];
                        frame [("opacity", vint 1)] ] |};
         {| frames := [ frame [("width", vint 10)];
                        frame [("width", vint 20)] ] |} ];
     transitions := [] |}.

(** The keyframes [from { transform: translateX(10) }]
    [to { transform: scale(2) }]. *)
Definition slideThenScale : list Keyframe :=
  [ frame [("transform", VArr [VObj [("translateX", vint 10)]])];
    frame [("transform", VArr [VObj [("scale", vint 2)]])] ].

(** Equalities between values whose numbers were computed. *)
Ltac same_values :=
  repeat first
    [ reflexivity
    | apply Qc_is_canon; vm_compute; reflexivity
    | f_equal ].

(* ================================================================== *)
(** ** animations.tsx: a render followed by a frame *)

(** [useAnimated(schema, dependencies, style)] after [useSchema]: the
    per-frame computation run on the schedule of the hooks and on the
    numbers that their progress cells hold, that is, before the driver has
    moved them. *)
Definition animatedFrame {R : Runtime} (hooks : SchemaHooks) (style : Style)
  : Outcome Style :=
  useAnimated_worklet style (schema hooks)
    (map current (dependencies_transitions hooks))
    (map current (dependencies_animations hooks)).

(* ================================================================== *)
(** ** animations_old.tsx: [createAnimatedComponent] *)

(** What [createAnimatedComponent] reads of a component: its identity (the
    key of the WeakMap), [displayName], [typeof Component === "function"],
    the truth of [Component.prototype && Component.prototype.isReactComponent],
    and [name]. *)
Record Component := {
  component_id : nat;
  displayName : option string;
  typeofFunction : bool;
  isReactComponent : bool;
  component_name : string
}.

(** The entries of the WeakMap [animatedCache], latest first. *)
Definition AnimatedCache := list (nat * Component).

Fixpoint cacheGet (cache : AnimatedCache) (C : Component) : option Component :=
  match cache with
  | [] => None
  | (id, animated) :: rest =>
      if (id =? component_id C)%nat then Some animated else cacheGet rest C
  end.

Definition cacheSet (cache : AnimatedCache) (C animated : Component) : AnimatedCache :=
  (component_id C, animated) :: cache.

Definition notForwardedMessage (C : Component) : string :=
  "Looks like you're passing an animation style to a function component `"
  ++ component_name C
  ++ "`. Please wrap your function component with `React.forwardRef()` or use a class component instead.".

Section AnimatedComponent.
(** [Animated.createAnimatedComponent] of react-native-reanimated. *)
Variable Animated_createAnimatedComponent : Component -> Component.

(** The result and the cache after the call. *)
Definition createAnimatedComponent (animatedCache : AnimatedCache) (C : Component)
  : Outcome (Component * AnimatedCache) :=
  match cacheGet animatedCache C with
  | Some animated => Returned (animated, animatedCache)
  | None =>
      if match displayName C with
         | Some text => String.prefix "AnimatedComponent" text
         | None => false
         end
      then Returned (C, animatedCache)
      else if negb (negb (typeofFunction C) || isReactComponent C)
      then Threw (notForwardedMessage C)
      else
        let AnimatedComponent := Animated_createAnimatedComponent C in
        Returned (AnimatedComponent, cacheSet animatedCache C AnimatedComponent)
  end.

End AnimatedComponent.

(* ================================================================== *)
(** ** animations_old.tsx: the render of [useAnimations] *)

(** lightningcss [AnimationIterationCount]: [{ type: "infinite" }] or
    [{ type: "number", value }]. *)
Record AnimationIterationCount := { count_type : string; count_value : num }.

(** A number or [Infinity]. *)
Inductive Count : Type :=
| Infinity
| Times (times : num).

Definition countToInteger (count : AnimationIterationCount) : Count :=
  if String.eqb (count_type count) "infinite" then Infinity
  else Times (count_value count).

(** The [animations] entry of the style metadata, with the fields that
    [useAnimations] reads. *)
Record ExtractedAnimations := {
  anim_name : option (list AnimationName);
  anim_duration : option (list Time);
  anim_timingFunction : option (list EasingFunction);
  anim_iterationCount : option (list AnimationIterationCount);
  anim_fillMode : option (list string);
  anim_direction : option (list string)
}.

(** [{ name: [] }] *)
Definition noExtractedAnimations : ExtractedAnimations :=
  {| anim_name := Some [];
     anim_duration := None;
     anim_timingFunction := None;
     anim_iterationCount := None;
     anim_fillMode := None;
     anim_direction := None |}.

(** The hooks of one animation that is not skipped: the shared value
    [progress] and the dependency [keyframes.length] of [useMemo]. *)
Record AnimationHook := { hook_progress : Cell; hook_length : nat }.

Section OldAnimationsRender.
Context {R : Runtime}.
Variable animationMap : string -> option ExtractedAnimation.

(** Lines 168-215: the function of [useMemo]; the result is the progress
    cell after it. *)
Definition useAnimations_memo (animations : ExtractedAnimations) (index : nat)
    (progress : Cell) : Outcome Cell :=
  let fillMode := getValue (anim_fillMode animations) index "none" in
  let direction := getValue (anim_direction animations) index "normal" in
  match getValue (anim_duration animations) index
          {| time_type := "seconds"; time_value := zero |} with
  | None => Threw TypeError
  | Some time =>
      let duration := timeToMS time in
      match getValue (anim_timingFunction animations) index
              {| easing_type := "linear"; easing_fields := [] |} with
      | None => Threw TypeError
      | Some timingFunction =>
          match timingToEasing timingFunction with
          | Threw error => Threw error
          | Returned _ => Returned (restart progress (num_of_Z 10000))
          end
      end
  end.

(** Lines 141-351: one turn of the loop, with the hooks stored for it
    ([None] on the render that creates them); [Returned None] is
    [continue]. *)
Definition useAnimations_turn (style : Style) (options : FlattenStyleOptions)
    (animations : ExtractedAnimations) (index : nat) (name : AnimationName)
    (stored : option AnimationHook)
  : Outcome (option (list Keyframe * AnimationHook)) :=
  match useAnimations_keyframes animationMap style options name with
  | None => Returned None
  | Some keyframes =>
      let progress :=
        match stored with
        | Some hook => hook_progress hook
        | None => freshCell
        end in
      match getValue (anim_iterationCount animations) index
              {| count_type := "number"; count_value := one |} with
      | None => Threw TypeError
      | Some count =>
          let iterationCount := countToInteger count in
          if match stored with
             | Some hook => (hook_length hook =? List.length keyframes)%nat
             | None => false
             end
          then Returned (Some (keyframes,
                               {| hook_progress := progress;
                                  hook_length := List.length keyframes |}))
          else
            match useAnimations_memo animations index progress with
            | Threw error => Threw error
            | Returned progress' =>
                Returned (Some (keyframes,
                                {| hook_progress := progress';
                                   hook_length := List.length keyframes |}))
            end
      end
  end.

(** The loop: [index] runs over the names, [position] over the hooks,
    which the skipped names do not use. *)
Fixpoint useAnimations_turns (style : Style) (options : FlattenStyleOptions)
    (animations : ExtractedAnimations) (hooks : list AnimationHook)
    (names : list AnimationName) (index position : nat)
  : Outcome (list (list Keyframe * AnimationHook)) :=
  match names with
  | [] => Returned []
  | name :: rest =>
      match useAnimations_turn style options animations index name
              (nth_error hooks position) with
      | Threw error => Threw error
      | Returned None =>
          useAnimations_turns style options animations hooks rest (S index) position
      | Returned (Some slot) =>
          match useAnimations_turns style options animations hooks rest
                  (S index) (S position) with
          | Threw error => Threw error
          | Returned slots => Returned (slot :: slots)
          end
      end
  end.

(** [useAnimations(style, options)], with the [animations] entry of the
    metadata of [style]: for every animation that is not skipped, its
    keyframes and its hooks after the render. *)
Definition useAnimations (hooks : list AnimationHook) (style : Style)
    (animations : option ExtractedAnimations) (options : FlattenStyleOptions)
  : Outcome (list (list Keyframe * AnimationHook)) :=
  let animations :=
    match animations with
    | Some found => found
    | None => noExtractedAnimations
    end in
  match anim_name animations with
  | None => Threw TypeError
  | Some names =>
      useAnimations_turns style options animations hooks names 0 0
  end.

End OldAnimationsRender.

(* ================================================================== *)
(** ** Further notions of the statements *)

(** A key that starts with a digit. *)
Definition digitHead (k : string) : bool :=
  match k with
  | String c _ => isDigit c
  | EmptyString => false
  end.

(** What [useMemo] keeps is the flattening, under some options, of the
    frames of the keyframes it keeps. *)
Definition memoFaithful {R : Runtime}
    (memo : option (ExtractedAnimation * list Keyframe)) : Prop :=
  match memo with
  | Some (deps, kept) =>
      exists options, kept = map (flattenFrame options) (frames_of deps)
  | None => True
  end.

(** A slot of the old [useAnimations] whose progress was set to 0 and is
    driven to 1 over 10000 ms. *)
Definition drivenOverTenSeconds (slot : list Keyframe * AnimationHook) : Prop :=
  hook_progress (snd slot)
  = {| current := zero;
       driver := Some {| toValue := one; timing_duration := num_of_Z 10000 |} |}.

(** The text of a transition or keyframe value that [Object.assign] and the
    spread can take apart: a value that is not a plain object. *)
Definition notObject (v : value) : bool :=
  match v with VObj _ => false | _ => true end.

(** An animation map that holds [spin], of two frames. *)
Definition spin : ExtractedAnimation :=
  {| ref := 1;
     frames_of :=
       [ {| selector := zero;
            extracted_style := VObj [("transform", VArr [VObj [("rotate", VStr "0deg")]])] |};
         {| selector := one;
            extracted_style := VObj [("transform", VArr [VObj [("rotate", VStr "360deg")]])] |} ] |}.

Definition spinMap : string -> option ExtractedAnimation :=
  fun value => if String.eqb value "spin" then Some spin else None.

(** The value of component [k] of an endpoint filled in from [defaults]:
    that of the endpoint when it has the component, the default otherwise. *)
Definition filledIn (defaults endpoint : object) (k : string) : value :=
  if hasProp endpoint k then getProp endpoint k else getProp defaults k.

(** A slot of the animations loop as a render that runs no function of
    [useMemo] leaves it. *)
Definition settled (slot : AnimationSlot) : AnimationSlot :=
  {| slot_schema := slot_schema slot;
     slot_progress := slot_progress slot;
     slot_memo := slot_memo slot;
     slot_updated := false |}.

(** The names that the old [useAnimations] does not skip. *)
Definition named (name : AnimationName) : bool :=
  match name with NameNone => false | NameIdent _ => true end.

(** A function component, and the wrapper of the examples. *)
Definition plainFunction : Component :=
  {| component_id := 7; displayName := None; typeofFunction := true;
     isReactComponent := false; component_name := "Card" |}.

Definition classComponent : Component :=
  {| component_id := 8; displayName := None; typeofFunction := true;
     isReactComponent := true; component_name := "Panel" |}.

Definition wrapAnimated (C : Component) : Component :=
  {| component_id := component_id C + 100;
     displayName := Some ("AnimatedComponent(" ++ component_name C ++ ")")%string;
     typeofFunction := false;
     isReactComponent := false;
     component_name := component_name C |}.

(** [animation: spin 2s steps(4)] and [animation: spin 2s linear]. *)
Definition stepped : ExtractedAnimations :=
  {| anim_name := Some [NameIdent "spin"];
     anim_duration := Some [ {| time_type := "seconds"; time_value := num_of_Z 2 |} ];
     anim_timingFunction :=
       Some [ {| easing_type := "steps"; easing_fields := [("count", vint 4)] |} ];
     anim_iterationCount := None;
     anim_fillMode := None;
     anim_direction := None |}.

Definition smooth : ExtractedAnimations :=
  {| anim_name := Some [NameIdent "spin"];
     anim_duration := Some [ {| time_type := "seconds"; time_value := num_of_Z 2 |} ];
     anim_timingFunction :=
       Some [ {| easing_type := "linear"; easing_fields := [] |} ];
     anim_iterationCount := None;
     anim_fillMode := None;
     anim_direction := None |}.

(** The slots that a render of the old [useAnimations] leaves, for the
    renders of the examples (which do not throw). *)
Definition slotsOf (render : Outcome (list (list Keyframe * AnimationHook)))
  : list (list Keyframe * AnimationHook) :=
  match render with
  | Returned slots => slots
  | Threw _ => []
  end.

(** One half, as a rational. *)
Definition half_q : Qc := Q2Qc (1 # 2).

(* ================================================================== *)
(** * Properties *)

(** ** The unit pattern *)

Lemma takeWhile_prefix {A} (f : A -> bool) (l : list A) :
  exists rest, l = takeWhile f l ++ rest
               /\ match rest with [] => True | x :: _ => f x = false end.
Proof.
  induction l as [|x l [rest [Hl Hrest]]]; simpl.
  - exists []. split; [reflexivity | exact I].
  - destruct (f x) eqn:Hx.
    + exists rest. split; [simpl; congruence | exact Hrest].
    + exists (x :: l). split; [reflexivity | exact Hx].
Qed.

Lemma takeWhile_all {A} (f : A -> bool) (l : list A) :
  forallb f (takeWhile f l) = true.
Proof.
  induction l as [|x l IH]; simpl; [reflexivity|].
  destruct (f x) eqn:Hx; simpl; [rewrite Hx; exact IH | reflexivity].
Qed.

(** The text that [matchUnit] finds is a non-empty end of the subject made
    of class characters, and the character before it, if any, is outside
    the class: it is what [/[a-z%]+$/] matches. *)
Lemma matchUnit_Some (s unit : string) :
  matchUnit s = Some unit ->
  exists before,
    list_ascii_of_string s = before ++ list_ascii_of_string unit
    /\ unit <> ""
    /\ forallb isUnitChar (list_ascii_of_string unit) = true
    /\ match rev before with [] => True | c :: _ => isUnitChar c = false end.
Proof.
  unfold matchUnit, trailingRun. intros H.
  destruct (takeWhile_prefix isUnitChar (rev (list_ascii_of_string s)))
    as [rest [Hsplit Hrest]].
  pose proof (takeWhile_all isUnitChar (rev (list_ascii_of_string s))) as Hall.
  set (run := takeWhile isUnitChar (rev (list_ascii_of_string s))) in *.
  destruct (rev run) as [|c cs] eqn:Hrun; [discriminate|].
  injection H as <-.
  exists (rev rest).
  change (String c (string_of_list_ascii cs)) with (string_of_list_ascii (c :: cs)).
  rewrite list_ascii_of_string_of_list_ascii.
  repeat split.
  - rewrite <- Hrun, <- rev_app_distr, <- Hsplit, rev_involutive. reflexivity.
  - discriminate.
  - rewrite <- Hrun. rewrite forallb_forall in *. intros x Hx.
    apply Hall. apply in_rev. exact Hx.
  - rewrite rev_involutive. exact Hrest.
Qed.

(** There is no match exactly when the subject is empty or ends outside
    the class. *)
Lemma matchUnit_None (s : string) :
  matchUnit s = None <->
  match rev (list_ascii_of_string s) with
  | [] => True
  | c :: _ => isUnitChar c = false
  end.
Proof.
  unfold matchUnit, trailingRun.
  destruct (rev (list_ascii_of_string s)) as [|c cs]; simpl.
  - tauto.
  - destruct (isUnitChar c); simpl.
    + split; [|discriminate].
      destruct (rev (takeWhile isUnitChar cs) ++ [c]) eqn:E; [|discriminate].
      destruct (rev (takeWhile isUnitChar cs)); discriminate.
    + tauto.
Qed.

(** ** The interpolation helpers *)

Lemma strictZero_zero : strictZero (VNum zero) = true.
Proof. reflexivity. Qed.

Section HelperFacts.
Context {R : Runtime}.

Lemma interpolation_numbers (progress from to : num) :
  interpolation progress (VNum from) (VNum to) false
  = VNum (interpolate progress from to).
Proof. reflexivity. Qed.


Lemma interpolation_colour (progress : num) (from to : value) :
  interpolation progress from to true = interpolateColor progress from to.
Proof. reflexivity. Qed.

Lemma interpolation_texts (progress : num) (from to : string) :
  interpolation progress (VStr from) (VStr to) false
  = match matchUnit from with
    | Some unit =>
        VStr (numToString (interpolate progress (parseFloat from) (parseFloat to))
              ++ unit)
    | None => VNum zero
    end.
Proof. reflexivity. Qed.

(** Without the colour flag the current helper is the old one, but for
    the default of the old one's parameters. *)
Lemma interpolation_old (progress : num) (from to : value) :
  from <> VUndefined ->
  to <> VUndefined ->
  interpolation progress from to false = interpolateWithUnits progress from to.
Proof. destruct from, to; intros; try contradiction; reflexivity. Qed.

End HelperFacts.

Lemma linear_from (from to : Qc) : linear zero (Fin from) (Fin to) = Fin from.
Proof. unfold linear, zero. f_equal. ring. Qed.

Lemma linear_to (from to : Qc) : linear one (Fin from) (Fin to) = Fin to.
Proof. unfold linear, one. f_equal. ring. Qed.

Lemma linear_constant (progress v : Qc) : linear (Fin progress) (Fin v) (Fin v) = Fin v.
Proof. unfold linear. f_equal. ring. Qed.



Lemma num_eqb_zero (z : num) : num_eqb z zero = true <-> z = zero.
Proof.
  split.
  - destruct z as [|q]; simpl; [discriminate|].
    intros H. apply Qeq_bool_eq in H. unfold zero. f_equal.
    apply Qc_is_canon. exact H.
  - intros ->. reflexivity.
Qed.





(** C10, as stated, fails for the old helper: the endpoints [undefined]
    and 1 are of none of the listed shapes, yet [interpolateWithUnits]
    gives them their default 0 for [undefined] and interpolates the two
    numbers, which is 1/2 at progress 1/2 and not the number 0. The
    current helper, which has no such default, does return 0 there. *)
Lemma old_helper_interpolates_undefined_counterexample :
  handledShape VUndefined (vint 1) false = false
  /\ interpolateWithUnits (R := refRuntime) half VUndefined (vint 1)
     = VNum half
  /\ VNum half <> VNum zero
  /\ interpolation (R := refRuntime) half VUndefined (vint 1) false
     = VNum zero.
Proof.
  split; [reflexivity|]. split; [same_values|].
  split; [|reflexivity].
  intros H. injection H as H. discriminate H.
Qed.

(** C10, amended. An input of none of the handled shapes (not flagged as a
    colour, not two numbers, not a unit-suffixed [from] text with a text
    or the number 0, not the number 0 with a unit-suffixed [to] text)
    gives the number 0 in the current helper; in particular two texts of
    which [from] has no trailing unit. The old helper, which has no colour
    flag, gives the number 0 when the endpoints are of none of these
    shapes after each [undefined] endpoint has been replaced by its
    default 0. *)
Theorem interpolation_unhandled_is_zero {R : Runtime} :
  forall (progress : num) (from to : value) (isColor : bool),
    (handledShape from to isColor = false ->
     interpolation progress from to isColor = VNum zero)
    /\ (handledShape (orZero from) (orZero to) false = false ->
        interpolateWithUnits progress from to = VNum zero)
    /\ (forall f t : string,
           from = VStr f -> to = VStr t -> matchUnit f = None ->
           interpolation progress from to false = VNum zero
           /\ interpolateWithUnits progress from to = VNum zero).
Proof.
  intros progress from to isColor. split; [|split].
  - unfold handledShape, interpolation, unitSuffixed.
    destruct isColor; [discriminate|]. simpl.
    destruct (typeofNumber from && typeofNumber to); [discriminate|]. simpl.
    intros H. apply orb_false_elim in H as [H1 H2].
    destruct (typeofString from), (strictZero from), (typeofString to),
      (strictZero to), (matchUnitOf from), (matchUnitOf to);
      simpl in *; try reflexivity; discriminate.
  - unfold handledShape, interpolateWithUnits, unitSuffixed. simpl.
    destruct (typeofNumber (orZero from) && typeofNumber (orZero to));
      [discriminate|]. simpl.
    intros H. apply orb_false_elim in H as [H1 H2].
    destruct (typeofString (orZero from)), (strictZero (orZero from)),
      (typeofString (orZero to)), (strictZero (orZero to)),
      (matchUnitOf (orZero from)), (matchUnitOf (orZero to));
      simpl in *; try reflexivity; discriminate.
  - intros f t -> -> Hnone.
    unfold interpolation, interpolateWithUnits; simpl. rewrite Hnone.
    split; reflexivity.
Qed.

Lemma interpolation_unhandled_is_zero_witness :
  handledShape (VStr "700") (VStr "700") false = false
  /\ interpolation (R := refRuntime) half (VStr "700") (VStr "700") false
     = VNum zero.
Proof.
  split; [reflexivity|].
  exact (proj1 (interpolation_unhandled_is_zero (R := refRuntime)
                  half (VStr "700") (VStr "700") false) eq_refl).
Defined.

(** ** The schedule builder *)

Section ScheduleFacts.
Context {R : Runtime}.
Variable animationMap : string -> option ExtractedAnimation.

Lemma keyframesFor_default (name : AnimationName) :
  withoutKeyframes animationMap name ->
  keyframesFor animationMap name = defaultAnimation.
Proof.
  destruct name as [|value]; simpl; [reflexivity|].
  intros ->. reflexivity.
Qed.

Lemma animationSlot_default options name progress memo :
  withoutKeyframes animationMap name ->
  memoSound memo ->
  slot_schema (animationSlot animationMap options name progress memo)
  = {| frames := [] |}.
Proof.
  intros Hname Hmemo. unfold animationSlot.
  rewrite (keyframesFor_default _ Hname).
  destruct memo as [[deps kept]|]; [|reflexivity].
  destruct (ref deps =? ref defaultAnimation)%nat eqn:E; [|reflexivity].
  apply Nat.eqb_eq in E. simpl. rewrite (Hmemo E). reflexivity.
Qed.

Lemma animationsLoop_nth options hooks names start index :
  nth_error (animationsLoop animationMap options hooks names start) index
  = option_map
      (fun name =>
         animationSlot animationMap options name
           (hookAt (dependencies_animations hooks) (start + index) freshCell)
           (hookAt (memo_frames hooks) (start + index) None))
      (nth_error names index).
Proof.
  revert start index.
  induction names as [|name rest IH]; intros start [|index]; simpl;
    try reflexivity.
  - rewrite Nat.add_0_r. reflexivity.
  - rewrite IH. rewrite Nat.add_succ_r. reflexivity.
Qed.

Lemma hookAt_memoSound memos index :
  Forall memoSound memos -> memoSound (hookAt memos index None).
Proof.
  intros Hall. unfold hookAt.
  destruct (nth_in_or_default index memos None) as [Hin | ->]; [|exact I].
  rewrite Forall_forall in Hall. apply Hall. exact Hin.
Qed.

(** On the first render every turn of the animations loop runs the
    function of [useMemo]. *)
Lemma animationsLoop_first options names start :
  forallb slot_updated
    (animationsLoop animationMap options firstRender names start) = true.
Proof.
  revert start. induction names as [|name rest IH]; intros start; simpl.
  - reflexivity.
  - rewrite IH. unfold hookAt. simpl.
    destruct start; reflexivity.
Qed.

(** The invariant on what [useMemo] keeps holds from the first render on. *)
Lemma animationSlot_memoSound options name progress memo :
  mapApartFromDefault animationMap ->
  memoSound memo ->
  memoSound (slot_memo (animationSlot animationMap options name progress memo)).
Proof.
  intros Hmap Hmemo.
  assert (Hrecomputed :
            memoSound (Some (keyframesFor animationMap name,
                             map (flattenFrame options)
                                 (frames_of (keyframesFor animationMap name))))).
  { simpl. intros Href. destruct name as [|value]; simpl in *; [reflexivity|].
    destruct (animationMap value) as [keyframes|] eqn:E; [|reflexivity].
    exfalso. exact (Hmap _ _ E Href). }
  unfold animationSlot.
  destruct memo as [[deps kept]|]; [|exact Hrecomputed].
  destruct (ref deps =? ref (keyframesFor animationMap name))%nat;
    [exact Hmemo | exact Hrecomputed].
Qed.

Lemma useSchema_memoSound hooks style meta options :
  mapApartFromDefault animationMap ->
  Forall memoSound (memo_frames hooks) ->
  Forall memoSound
    (memo_frames (useSchema animationMap hooks style meta options)).
Proof.
  intros Hmap Hhooks. unfold useSchema; simpl.
  generalize 0%nat as start.
  induction (animationNamesOf meta) as [|name rest IH]; intros start; simpl.
  - constructor.
  - constructor; [|apply IH].
    apply animationSlot_memoSound; [exact Hmap|].
    apply hookAt_memoSound. exact Hhooks.
Qed.

Lemma firstRender_memoSound : Forall memoSound (memo_frames firstRender).
Proof. constructor. Qed.

End ScheduleFacts.

(** C6. A name that is [{ type: "none" }] or that the animation map does
    not hold gets the default animation, whose frames are empty: the slot
    that the schedule builder makes for it has an empty list of frames, on
    the first render (where it is the slot of the schedule) and on every
    later one. The old engine gives a name that the map does not hold the
    empty list of keyframes as well. *)
Theorem missing_keyframes_fall_back_to_default {R : Runtime} :
  forall (animationMap : string -> option ExtractedAnimation)
         (name : AnimationName),
    withoutKeyframes animationMap name ->
    keyframesFor animationMap name = defaultAnimation
    /\ frames_of defaultAnimation = []
    /\ (forall hooks meta options index,
           Forall memoSound (memo_frames hooks) ->
           nth_error (animationNamesOf meta) index = Some name ->
           exists slot,
             nth_error
               (animationsLoop animationMap options hooks (animationNamesOf meta) 0)
               index = Some slot
             /\ slot_schema slot = {| frames := [] |})
    /\ (forall style meta options index,
           nth_error (animationNamesOf meta) index = Some name ->
           nth_error
             (animations (schema (useSchema animationMap firstRender style meta options)))
             index = Some {| frames := [] |})
    /\ (forall style options value,
           name = NameIdent value ->
           useAnimations_keyframes animationMap style options name = Some []).
Proof.
  intros animationMap name Hname.
  split; [exact (keyframesFor_default animationMap name Hname)|].
  split; [reflexivity|].
  split; [|split].
  - intros hooks meta options index Hsound Hnth.
    rewrite animationsLoop_nth, Hnth. simpl. eexists. split; [reflexivity|].
    apply animationSlot_default; [exact Hname|].
    apply hookAt_memoSound. exact Hsound.
  - intros style meta options index Hnth. unfold useSchema.
    set (slots := animationsLoop animationMap options firstRender
                    (animationNamesOf meta) 0).
    assert (Hupdated : existsb slot_updated slots = true).
    { subst slots.
      destruct (animationNamesOf meta) as [|first rest];
        [destruct index; discriminate|].
      reflexivity. }
    rewrite Hupdated. simpl.
    rewrite nth_error_map. subst slots.
    rewrite animationsLoop_nth, Hnth. simpl. f_equal.
    apply animationSlot_default; [exact Hname|].
    apply (hookAt_memoSound (memo_frames firstRender)). constructor.
  - intros style options value ->. simpl in *. rewrite Hname. reflexivity.
Qed.

Lemma missing_keyframes_fall_back_to_default_witness :
  withoutKeyframes noAnimations (NameIdent "spin")
  /\ nth_error
       (animations
          (schema (useSchema (R := refRuntime) noAnimations firstRender []
                     (animationsOf [NameIdent "spin"]) noOptions)))
       0 = Some {| frames := [] |}.
Proof.
  split; [reflexivity|].
  exact (proj1 (proj2 (proj2 (proj2
           (missing_keyframes_fall_back_to_default (R := refRuntime)
              noAnimations (NameIdent "spin") eq_refl))))
           [] (animationsOf [NameIdent "spin"]) noOptions 0%nat eq_refl).
Defined.

(** ** The transition trackers *)

Lemma getValue_nonempty {T} (array : list T) (index : nat) (defaultValue : T) :
  array <> [] -> exists x, getValue (Some array) index defaultValue = Some x.
Proof.
  intros Hne. destruct array as [|a rest]; [contradiction|].
  unfold getValue.
  change (List.length (a :: rest)) with (S (List.length rest)).
  destruct (nth_error (a :: rest) (index mod S (List.length rest))) eqn:E.
  - eexists. reflexivity.
  - exfalso. apply nth_error_None in E. simpl in E.
    pose proof (Nat.mod_upper_bound index (S (List.length rest))). lia.
Qed.

(** Within the array, [getValue] reads the element at [index]. *)
Lemma getValue_in_range {T} (array : list T) (index : nat) (defaultValue : T) :
  index < List.length array ->
  getValue (Some array) index defaultValue = nth_error array index.
Proof.
  intros Hlt. unfold getValue.
  destruct (List.length array) eqn:E; [lia|].
  rewrite Nat.mod_small by lia. reflexivity.
Qed.

Lemma pushed_In (slots : list TransitionSlot) slot s :
  In slot slots -> tslot_schema slot = Some s -> In s (pushed slots).
Proof.
  induction slots as [|x rest IH]; simpl; [tauto|].
  intros [-> | Hin] Hs.
  - rewrite Hs. left. reflexivity.
  - destruct (tslot_schema x); [right|]; apply IH; assumption.
Qed.

(** While every turn pushes, the pushes stay aligned with the turns. *)
Lemma pushed_nth (slots : list TransitionSlot) index slot s :
  (forall j x, j < index -> nth_error slots j = Some x -> tslot_schema x <> None) ->
  nth_error slots index = Some slot ->
  tslot_schema slot = Some s ->
  nth_error (pushed slots) index = Some s.
Proof.
  revert index. induction slots as [|x rest IH]; intros [|index] Hdense Hnth Hs;
    simpl in *; try discriminate.
  - injection Hnth as ->. rewrite Hs. reflexivity.
  - destruct (tslot_schema x) eqn:Ex.
    + simpl. apply IH; [|exact Hnth|exact Hs].
      intros j y Hj Hy. apply (Hdense (S j) y); [lia | exact Hy].
    + exfalso. apply (Hdense 0%nat x); [lia | reflexivity | exact Ex].
Qed.

Section TrackerFacts.
Context {R : Runtime}.
Variable animationMap : string -> option ExtractedAnimation.

Lemma transitionsLoop_nth style hooks props start index :
  nth_error (transitionsLoop style hooks props start) index
  = option_map (transitionSlot style hooks (start + index))
               (nth_error props index).
Proof.
  revert start index.
  induction props as [|prop rest IH]; intros start [|index]; simpl;
    try reflexivity.
  - rewrite Nat.add_0_r. reflexivity.
  - rewrite IH, Nat.add_succ_r. reflexivity.
Qed.

(** The current tracker, on a render that finds a tracked pair for the
    property at [index]: the pair is shifted, the progress cell is set to
    0 and driven to 1, over 1000 ms whatever the metadata says. *)
Lemma useSchema_shifts_tracked_pair hooks style meta options index prop previous :
  nth_error (transitionsOf meta) index = Some prop ->
  nth_error (transitions (schema hooks)) index = Some previous ->
  let hooks' := useSchema animationMap hooks style meta options in
  nth_error (transitions (schema hooks')) index
  = Some {| prop := prop;
            output := (snd (output previous), getProp style prop) |}
  /\ nth_error (dependencies_transitions hooks') index
     = Some {| current := zero;
               driver := Some {| toValue := one;
                                 timing_duration := num_of_Z 1000 |} |}.
Proof.
  intros Hprop Hprevious hooks'. subst hooks'. unfold useSchema.
  set (aslots := animationsLoop animationMap options hooks (animationNamesOf meta) 0).
  set (tslots := transitionsLoop style hooks (transitionsOf meta) 0).
  assert (Hslot : nth_error tslots index
                  = Some (transitionSlot style hooks index prop)).
  { subst tslots. rewrite transitionsLoop_nth, Hprop. reflexivity. }
  assert (Hshape : transitionSlot style hooks index prop
                   = {| tslot_schema :=
                          Some {| prop := prop;
                                  output := (snd (output previous),
                                             getProp style prop) |};
                        tslot_progress :=
                          restart (hookAt (dependencies_transitions hooks)
                                     index freshCell) (num_of_Z 1000);
                        tslot_updated := true |}).
  { unfold transitionSlot. rewrite Hprevious. reflexivity. }
  assert (Hupdated : existsb tslot_updated tslots = true).
  { apply existsb_exists. eexists. split.
    - eapply nth_error_In. exact Hslot.
    - rewrite Hshape. reflexivity. }
  rewrite Hupdated, orb_true_r. simpl. split.
  - eapply pushed_nth; [|exact Hslot|rewrite Hshape; reflexivity].
    intros j x Hj Hx. subst tslots.
    rewrite transitionsLoop_nth in Hx. simpl in Hx.
    destruct (nth_error (transitionsOf meta) j) as [pj|]; [|discriminate].
    injection Hx as <-. unfold transitionSlot.
    destruct (nth_error (transitions (schema hooks)) j) eqn:Ej;
      [discriminate|].
    exfalso. apply nth_error_None in Ej.
    assert (index < List.length (transitions (schema hooks)))
      by (apply nth_error_Some; congruence).
    lia.
  - rewrite nth_error_map, Hslot, Hshape. reflexivity.
Qed.

(** The current tracker, on a render that finds no tracked pair at
    [index] and a value that is neither [undefined] nor [null]. *)
Lemma transitionSlot_starts style hooks index prop :
  nth_error (transitions (schema hooks)) index = None ->
  getProp style prop <> VUndefined ->
  getProp style prop <> VNull ->
  transitionSlot style hooks index prop
  = {| tslot_schema :=
         Some {| prop := prop;
                 output := (getProp style prop, getProp style prop) |};
       tslot_progress := hookAt (dependencies_transitions hooks) index freshCell;
       tslot_updated := true |}.
Proof.
  intros Hnone Hundefined Hnull. unfold transitionSlot. rewrite Hnone.
  destruct (getProp style prop); try reflexivity; contradiction.
Qed.

Lemma useSchema_starts_pair style meta options index prop :
  nth_error (transitionsOf meta) index = Some prop ->
  getProp style prop <> VUndefined ->
  getProp style prop <> VNull ->
  In {| prop := prop; output := (getProp style prop, getProp style prop) |}
     (transitions (schema (useSchema animationMap firstRender style meta options))).
Proof.
  intros Hprop Hundefined Hnull. unfold useSchema.
  set (aslots := animationsLoop animationMap options firstRender
                   (animationNamesOf meta) 0).
  set (tslots := transitionsLoop style firstRender (transitionsOf meta) 0).
  assert (Hslot : nth_error tslots index
                  = Some (transitionSlot style firstRender index prop)).
  { subst tslots. rewrite transitionsLoop_nth, Hprop. reflexivity. }
  assert (Hshape := transitionSlot_starts style firstRender index prop).
  rewrite Hshape in Hslot; try assumption;
    try (simpl; destruct index; reflexivity).
  assert (Hupdated : existsb tslot_updated tslots = true).
  { apply existsb_exists. eexists. split.
    - eapply nth_error_In. exact Hslot.
    - reflexivity. }
  rewrite Hupdated, orb_true_r. simpl.
  eapply pushed_In; [eapply nth_error_In; exact Hslot | reflexivity].
Qed.

End TrackerFacts.

Lemma transitionTurns_nth style durations hooks properties start turns index prop :
  transitionTurns style durations hooks properties start = Some turns ->
  nth_error properties index = Some prop ->
  exists turn,
    transitionTurn style durations hooks (start + index) prop = Some turn
    /\ nth_error turns index = Some turn.
Proof.
  revert start turns index.
  induction properties as [|p rest IH]; intros start turns [|index] Hturns Hprop;
    simpl in *; try discriminate.
  - injection Hprop as ->.
    destruct (transitionTurn style durations hooks start prop) as [turn|] eqn:E;
      [|discriminate].
    destruct (transitionTurns style durations hooks rest (S start));
      [|discriminate].
    injection Hturns as <-. exists turn. rewrite Nat.add_0_r. split; [exact E|reflexivity].
  - destruct (transitionTurn style durations hooks start p); [|discriminate].
    destruct (transitionTurns style durations hooks rest (S start)) as [more|] eqn:E;
      [|discriminate].
    injection Hturns as <-. rewrite Nat.add_succ_r.
    apply (IH (S start) more index E Hprop).
Qed.

Lemma transitionTurns_total style durations hooks properties start :
  durations <> [] ->
  exists turns, transitionTurns style durations hooks properties start = Some turns.
Proof.
  intros Hne. revert start.
  induction properties as [|p rest IH]; intros start; simpl.
  - eexists. reflexivity.
  - unfold transitionTurn at 1.
    destruct (getValue_nonempty durations start defaultDuration Hne) as [time ->].
    destruct (IH (S start)) as [turns ->].
    destruct (hookAt (outputs hooks) start None); [eexists; reflexivity|].
    destruct (getProp style p); eexists; reflexivity.
Qed.

(** The old tracker, on a render that finds a tracked pair for the property
    at [index]: the pair is shifted, the progress cell is set to 0 and
    driven to 1 over the [value] of the duration that the metadata holds
    for [index]. *)
Lemma useTransitions_shifts_tracked_pair DEV hooks style meta hooks' index prop
      previous time :
  useTransitions DEV hooks style meta = Returned hooks' ->
  nth_error (transitionsOf meta) index = Some prop ->
  hookAt (outputs hooks) index None = Some previous ->
  getValue (Some (durationsOf meta)) index defaultDuration = Some time ->
  nth_error (outputs hooks') index = Some (Some (snd previous, getProp style prop))
  /\ nth_error (progresses hooks') index
     = Some {| current := zero;
               driver := Some {| toValue := one;
                                 timing_duration := time_value time |} |}.
Proof.
  unfold useTransitions. intros Hrender Hprop Hprevious Htime.
  destruct (DEV && _); [discriminate|].
  destruct (transitionTurns style (durationsOf meta) hooks (transitionsOf meta) 0)
    as [turns|] eqn:Eturns; [|discriminate].
  injection Hrender as <-. simpl.
  destruct (transitionTurns_nth _ _ _ _ _ _ _ _ Eturns Hprop) as [turn [Hturn Hnth]].
  simpl in Hturn. unfold transitionTurn in Hturn.
  rewrite Htime, Hprevious in Hturn. injection Hturn as <-.
  rewrite !nth_error_map, Hnth. split; reflexivity.
Qed.

Lemma num_of_Z_1000_250 : num_of_Z 1000 <> num_of_Z 250.
Proof.
  intros H.
  apply (f_equal (fun x => match x with Fin q => Qnum q | NaN => 0%Z end)) in H.
  vm_compute in H. discriminate.
Qed.

(** C4, on the current engine. The style [{ opacity: 0 }] is rendered, then
    [{ opacity: 1 }], both with the transition metadata [opacity 250ms]:
    the second render shifts the pair to [(0, 1)] and sets the progress
    cell to 0, but drives it to 1 over 1000 ms, not over the 250 ms of the
    metadata. The old engine, on the same renders, drives it over 250. *)
Theorem transition_duration_is_not_the_configured_one :
  let meta := transitionOf ["opacity"] 250 in
  let hooks1 :=
    useSchema (R := refRuntime) noAnimations firstRender
      [("opacity", vint 0)] meta noOptions in
  let hooks2 :=
    useSchema (R := refRuntime) noAnimations hooks1
      [("opacity", vint 1)] meta noOptions in
  transitions (schema hooks1)
  = [ {| prop := "opacity"; output := (vint 0, vint 0) |} ]
  /\ transitions (schema hooks2)
     = [ {| prop := "opacity"; output := (vint 0, vint 1) |} ]
  /\ dependencies_transitions hooks2
     = [ {| current := zero;
            driver := Some {| toValue := one;
                              timing_duration := num_of_Z 1000 |} |} ]
  /\ num_of_Z 1000 <> num_of_Z 250
  /\ exists old1 old2,
       useTransitions true beforeFirstRender [("opacity", vint 0)] meta
       = Returned old1
       /\ useTransitions true old1 [("opacity", vint 1)] meta = Returned old2
       /\ outputs old2 = [ Some (vint 0, vint 1) ]
       /\ progresses old2
          = [ {| current := zero;
                 driver := Some {| toValue := one;
                                   timing_duration := num_of_Z 250 |} |} ].
Proof.
  cbv zeta.
  split; [reflexivity|]. split; [reflexivity|]. split; [reflexivity|].
  split; [exact num_of_Z_1000_250|].
  do 2 eexists.
  split; [reflexivity|]. split; [reflexivity|]. split; reflexivity.
Qed.

Lemma Rendered_recorded (first : list string) (hooks : TransitionHooks) :
  Rendered first hooks ->
  exists typed,
    animatedTyped hooks = Some typed /\ List.length typed = List.length first.
Proof.
  induction 1 as [DEV style meta hooks Hfirst Hrender
                 | DEV style meta hooks hooks' Hbefore [typed [Htyped Hlen]] Hrender];
    unfold useTransitions in Hrender;
    destruct (DEV && _); try discriminate;
    destruct (transitionTurns _ _ _ _ _); try discriminate;
    injection Hrender as <-; simpl.
  - eexists. split; [reflexivity|].
    unfold typedProperties. rewrite length_map, Hfirst. reflexivity.
  - rewrite Htyped. exists typed. split; [reflexivity | exact Hlen].
Qed.

(** C8. In a development build ([__DEV__] true), a render of the old
    transition tracker whose number of transition properties differs from
    the number that the first render recorded throws at once, before any
    property is looked at. *)
Theorem useTransitions_mismatch_throws :
  forall (first : list string) (hooks : TransitionHooks)
         (style : Style) (meta : option StyleMeta),
    Rendered first hooks ->
    List.length (transitionsOf meta) <> List.length first ->
    useTransitions true hooks style meta
    = Threw "Number of transition properties must match between renders".
Proof.
  intros first hooks style meta Hrendered Hdiffer.
  destruct (Rendered_recorded first hooks Hrendered) as [typed [Htyped Hlen]].
  unfold useTransitions. rewrite Htyped, Hlen. simpl.
  apply Nat.eqb_neq in Hdiffer. rewrite Hdiffer. reflexivity.
Qed.

Lemma useTransitions_mismatch_throws_witness :
  let hooks :=
    hooksOf (useTransitions true beforeFirstRender [("opacity", vint 1)]
               (transitionOf ["opacity"] 250)) in
  Rendered ["opacity"] hooks
  /\ List.length (transitionsOf (transitionOf ["opacity"; "width"] 250))
     <> List.length ["opacity"]
  /\ useTransitions true hooks [("opacity", vint 1)]
       (transitionOf ["opacity"; "width"] 250)
     = Threw "Number of transition properties must match between renders".
Proof.
  cbv zeta.
  assert (Hrendered :
            Rendered ["opacity"]
              (hooksOf (useTransitions true beforeFirstRender [("opacity", vint 1)]
                          (transitionOf ["opacity"] 250)))).
  { apply (Rendered_first ["opacity"] true [("opacity", vint 1)]
             (transitionOf ["opacity"] 250)); reflexivity. }
  split; [exact Hrendered|].
  split; [discriminate|].
  apply (useTransitions_mismatch_throws ["opacity"] _ _ _ Hrendered).
  discriminate.
Defined.

(** ** The timing conversion *)

(** C7, as stated, fails: [cubic-bezier(0.42, 0, 1, 1)] and [ease-in-out],
    which the engine has no easing for, are not refused; they come back as
    the linear easing, which is not the curve asked for. *)
Lemma unsupported_timing_not_refused_counterexample :
  timingToEasing (R := refRuntime) cubicBezier = Returned Easing_linear
  /\ (forall error, timingToEasing (R := refRuntime) cubicBezier <> Threw error)
  /\ Easing_linear <> Easing_bezier x1_ zero one one
  /\ timingToEasing (R := refRuntime)
       {| easing_type := "ease-in-out"; easing_fields := [] |}
     = Returned Easing_linear.
Proof.
  split; [reflexivity|].
  split; [discriminate|].
  split; [discriminate|].
  reflexivity.
Qed.

(** C7, amended. [timingToEasing] raises an error for the type [steps]
    ("Not supported") and for every type that is none of [linear], [ease],
    [ease-in], [ease-out], [ease-in-out], [cubic-bezier]; for these six it
    returns the linear easing. *)
Theorem timingToEasing_refuses_steps_and_unknown {R : Runtime} :
  forall timingFunction : EasingFunction,
    (accepted (easing_type timingFunction) = true
     /\ timingToEasing timingFunction = Returned Easing_linear)
    \/ (accepted (easing_type timingFunction) = false
        /\ (exists error, timingToEasing timingFunction = Threw error)
        /\ (easing_type timingFunction = "steps"
            /\ timingToEasing timingFunction = Threw "Not supported"
            \/ easing_type timingFunction <> "steps"
               /\ timingToEasing timingFunction
                  = Threw (match exhaustiveCheck timingFunction with
                           | Some error => error
                           | None => "Unknown timing function"
                           end))).
Proof.
  intros [type fields]. unfold timingToEasing, accepted, setHas. simpl.
  destruct (String.eqb type "linear"); [left; split; reflexivity|].
  destruct (String.eqb type "ease"); [left; split; reflexivity|].
  destruct (String.eqb type "ease-in"); [left; split; reflexivity|].
  destruct (String.eqb type "ease-out"); [left; split; reflexivity|].
  destruct (String.eqb type "ease-in-out"); [left; split; reflexivity|].
  destruct (String.eqb type "cubic-bezier"); [left; split; reflexivity|].
  simpl. right. split; [reflexivity|].
  destruct (String.eqb type "steps") eqn:Esteps.
  - apply String.eqb_eq in Esteps. split; [eexists; reflexivity|].
    left. split; [exact Esteps | reflexivity].
  - apply String.eqb_neq in Esteps.
    destruct (exhaustiveCheck {| easing_type := type; easing_fields := fields |});
      (split; [eexists; reflexivity|]); right; split; (exact Esteps || reflexivity).
Qed.

(** ** The per-frame computation *)

Lemma num_eqb_refl (z : Z) : num_eqb (num_of_Z z) (num_of_Z z) = true.
Proof. unfold num_of_Z, num_eqb. apply Qeq_bool_iff. reflexivity. Qed.

Lemma num_of_Z_zero (z : Z) : num_of_Z z = zero -> z = 0%Z.
Proof.
  unfold num_of_Z, zero. intros H.
  assert (Hthis : this (Q2Qc (inject_Z z)) = this (Q2Qc 0%Q)) by congruence.
  change (Qred (inject_Z z) = Qred 0%Q) in Hthis.
  apply Qred_eq_iff in Hthis. unfold Qeq in Hthis. simpl in Hthis. lia.
Qed.

(** Reading an array at an integer index within it. *)
Lemma at_index {A} (array : list A) (i : nat) :
  at_ array (num_of_Z (Z.of_nat i)) = nth_error array i.
Proof.
  unfold at_, num_of_Z, isInteger.
  assert (Hq : (this (Q2Qc (inject_Z (Z.of_nat i))) == inject_Z (Z.of_nat i))%Q)
    by apply Qred_correct.
  assert (Hfloor : Qfloor (this (Q2Qc (inject_Z (Z.of_nat i)))) = Z.of_nat i).
  { rewrite Hq. apply Qfloor_Z. }
  rewrite Hfloor.
  replace (Qeq_bool (Q2Qc (inject_Z (Z.of_nat i))) (inject_Z (Z.of_nat i)))
    with true by (symmetry; apply Qeq_bool_iff; exact Hq).
  replace (0 <=? Z.of_nat i)%Z with true by (symmetry; apply Z.leb_le; lia).
  simpl. rewrite Nat2Z.id. reflexivity.
Qed.

Lemma at_last {A} (array : list A) (x : A) :
  nth_error array (List.length array - 1) = Some x ->
  at_ array (num_of_Z (Z.of_nat (List.length array) - 1)) = Some x.
Proof.
  intros Hlast.
  assert (Hne : List.length array <> 0).
  { destruct array; [discriminate | simpl; lia]. }
  replace (Z.of_nat (List.length array) - 1)%Z
    with (Z.of_nat (List.length array - 1)) by lia.
  rewrite at_index. exact Hlast.
Qed.

Section WorkletFacts.
Context {R : Runtime}.

(** A turn of the animations loop whose progress is 0 returns the style
    of the first frame. *)
Lemma worklet_animation_first style animations index result first rest :
  framesAt animations index = first :: rest ->
  worklet_animation style animations index zero result
  = Return (kf_style first).
Proof.
  intros Hframes. unfold worklet_animation. rewrite Hframes. reflexivity.
Qed.

(** A turn whose progress is the index of the last frame returns the
    style of the last frame. *)
Lemma worklet_animation_last style animations index result last :
  nth_error (framesAt animations index)
            (List.length (framesAt animations index) - 1) = Some last ->
  worklet_animation style animations index
    (num_of_Z (Z.of_nat (List.length (framesAt animations index)) - 1)) result
  = Return (kf_style last).
Proof.
  intros Hlast. unfold worklet_animation.
  set (frames := framesAt animations index) in *.
  set (lastIndex := num_of_Z (Z.of_nat (List.length frames) - 1)).
  destruct (num_eqb lastIndex zero) eqn:Ezero.
  - apply num_eqb_zero in Ezero. subst lastIndex.
    apply num_of_Z_zero in Ezero.
    replace (List.length frames - 1) with 0 in Hlast by lia.
    rewrite Hlast. reflexivity.
  - subst lastIndex. rewrite num_eqb_refl, (at_last frames last Hlast).
    reflexivity.
Qed.

(** The turns that pass hand the loop on to the turns after them. *)
Lemma worklet_animations_passes style animations before :
  forall start result,
    (forall j progress,
        nth_error before j = Some progress ->
        passes style animations (start + j) progress) ->
    exists result',
      forall after,
        worklet_animations style animations (before ++ after) start result
        = worklet_animations style animations after
            (start + List.length before) result'.
Proof.
  induction before as [|progress before IH]; intros start result Hpass.
  - exists result. intros after. simpl. rewrite Nat.add_0_r. reflexivity.
  - destruct (Hpass 0 progress eq_refl result) as [result1 Hstep].
    rewrite Nat.add_0_r in Hstep.
    destruct (IH (S start) result1) as [result' Hrest].
    { intros j pj Hj. replace (S start + j) with (start + S j) by lia.
      apply Hpass. exact Hj. }
    exists result'. intros after. simpl. rewrite Hstep, Hrest.
    replace (S start + List.length before)
      with (start + S (List.length before)) by lia.
    reflexivity.
Qed.

End WorkletFacts.

(** C9, as stated, fails: of the two animation slots of [fadeThenGrow], the
    second has progress 0 and two frames, yet the computation does not
    return the style of its first frame. When the progress of the first
    slot is its last frame index, the style of that slot's last frame is
    returned, its turn coming first; when it is 1/2, the turn of the first
    slot throws, as it spreads the number that the to-frame holds for
    [opacity]. *)
Lemma zero_progress_of_a_later_slot_counterexample :
  nth_error [one; zero] 1 = Some zero
  /\ nth_error [half; zero] 1 = Some zero
  /\ framesAt (animations fadeThenGrow) 1
     = [ frame [("width", vint 10)]; frame [("width", vint 20)] ]
  /\ useAnimated_worklet (R := refRuntime) [("opacity", vint 1)] fadeThenGrow []
       [one; zero]
     = Returned [("opacity", vint 1)]
  /\ useAnimated_worklet (R := refRuntime) [("opacity", vint 1)] fadeThenGrow []
       [half; zero]
     = Threw TypeError
  /\ Returned [("opacity", vint 1)] <> Returned [("width", vint 10)]
  /\ Threw TypeError <> Returned [("width", vint 10)].
Proof.
  split; [reflexivity|]. split; [reflexivity|]. split; [reflexivity|].
  split; [reflexivity|]. split; [reflexivity|].
  split; discriminate.
Qed.

(** C9, amended. In the per-frame computation of the current engine, when
    the turns of the animation slots before a slot all pass (none returns
    or throws), and that slot has progress exactly 0 and a first frame,
    the computation returns exactly the style of that frame, whatever the
    base style, the transitions and their progress; and when its progress
    is the index of its last frame, exactly the style of the last frame.
    The computation of the old engine, which has one slot, does the same. *)
Theorem returns_first_or_last_frame_style {R : Runtime} :
  (forall (style : Style) (schema : Schema)
          (transitionProgress before after : list num),
      (forall j progress,
          nth_error before j = Some progress ->
          passes style (animations schema) j progress) ->
      let frames := framesAt (animations schema) (List.length before) in
      (forall first rest,
          frames = first :: rest ->
          useAnimated_worklet style schema transitionProgress
            (before ++ zero :: after)
          = Returned (kf_style first))
      /\ (forall last,
             nth_error frames (List.length frames - 1) = Some last ->
             useAnimated_worklet style schema transitionProgress
               (before ++ num_of_Z (Z.of_nat (List.length frames) - 1) :: after)
             = Returned (kf_style last)))
  /\ (forall (keyframes : list Keyframe),
         (forall first rest,
             keyframes = first :: rest ->
             useAnimations_worklet keyframes zero = Returned (kf_style first))
         /\ (forall last,
                nth_error keyframes (List.length keyframes - 1) = Some last ->
                useAnimations_worklet keyframes
                  (num_of_Z (Z.of_nat (List.length keyframes) - 1))
                = Returned (kf_style last))).
Proof.
  split.
  - intros style schema transitionProgress before after Hpass frames.
    unfold useAnimated_worklet.
    set (result := worklet_transitions _ _ _ _).
    destruct (worklet_animations_passes style (animations schema) before 0
                result Hpass) as [result' Hloop].
    split.
    + intros first rest Hframes. rewrite Hloop. simpl.
      rewrite (worklet_animation_first _ _ _ _ first rest Hframes). reflexivity.
    + intros last Hlast. rewrite Hloop. simpl.
      rewrite (worklet_animation_last _ _ _ _ last Hlast). reflexivity.
  - intros keyframes. split.
    + intros first rest ->. reflexivity.
    + intros last Hlast. unfold useAnimations_worklet.
      set (lastIndex := num_of_Z (Z.of_nat (List.length keyframes) - 1)).
      destruct (num_eqb lastIndex zero) eqn:Ezero.
      * apply num_eqb_zero in Ezero. subst lastIndex.
        apply num_of_Z_zero in Ezero.
        replace (List.length keyframes - 1) with 0 in Hlast by lia.
        rewrite Hlast. reflexivity.
      * subst lastIndex. rewrite num_eqb_refl, (at_last keyframes last Hlast).
        reflexivity.
Qed.

Lemma returns_first_or_last_frame_style_witness :
  (forall j progress,
      nth_error [half] j = Some progress ->
      passes (R := refRuntime) [("opacity", vint 1)]
        [ {| frames := [frame [("opacity", vint 0)]] |};
          {| frames := [frame [("width", vint 10)]; frame [("width", vint 20)]] |} ]
        j progress)
  /\ useAnimated_worklet (R := refRuntime) [("opacity", vint 1)]
       {| animations :=
            [ {| frames := [frame [("opacity", vint 0)]] |};
              {| frames := [frame [("width", vint 10)];
                            frame [("width", vint 20)]] |} ];
          transitions := [] |}
       [] ([half] ++ zero :: [])
     = Returned [("width", vint 10)].
Proof.
  assert (Hpass :
            forall j progress,
              nth_error [half] j = Some progress ->
              passes (R := refRuntime) [("opacity", vint 1)]
                [ {| frames := [frame [("opacity", vint 0)]] |};
                  {| frames := [frame [("width", vint 10)];
                                frame [("width", vint 20)]] |} ]
                j progress).
  { intros [|[|j]] progress Hj; try discriminate.
    injection Hj as <-. intros result. exists result. reflexivity. }
  split; [exact Hpass|].
  exact (proj1 (proj1 (returns_first_or_last_frame_style (R := refRuntime))
                  [("opacity", vint 1)]
                  {| animations :=
                       [ {| frames := [frame [("opacity", vint 0)]] |};
                         {| frames := [frame [("width", vint 10)];
                                       frame [("width", vint 20)]] |} ];
                     transitions := [] |}
                  [] [half] [] Hpass)
           (frame [("width", vint 10)]) [frame [("width", vint 20)]] eq_refl).
Defined.

(** ** The default transform *)

Lemma getProp_replaceProp_other (o : object) (k k' : string) (v : value) :
  k' <> k -> getProp (replaceProp o k v) k' = getProp o k'.
Proof.
  intros Hne. induction o as [|[key x] rest IH]; simpl; [reflexivity|].
  destruct (String.eqb k key) eqn:Ek; simpl.
  - apply String.eqb_eq in Ek. subst key.
    apply String.eqb_neq in Hne. rewrite Hne. reflexivity.
  - rewrite IH. reflexivity.
Qed.

Lemma getProp_insertIndexed_other (o : object) (i : N) (k k' : string) (v : value) :
  k' <> k -> getProp (insertIndexed o i k v) k' = getProp o k'.
Proof.
  intros Hne. apply String.eqb_neq in Hne.
  induction o as [|[key x] rest IH]; simpl.
  - rewrite Hne. reflexivity.
  - destruct (arrayIndex key) as [m|]; [destruct (m <? i)%N|]; simpl;
      rewrite ?Hne, ?IH; reflexivity.
Qed.

Lemma getProp_app_other (o : object) (k k' : string) (v : value) :
  k' <> k -> getProp (o ++ [(k, v)]) k' = getProp o k'.
Proof.
  intros Hne. apply String.eqb_neq in Hne.
  induction o as [|[key x] rest IH]; simpl.
  - rewrite Hne. reflexivity.
  - rewrite IH. reflexivity.
Qed.

(** Writing a property leaves the others as they are. *)
Lemma getProp_setProp_other (o : object) (k k' : string) (v : value) :
  k' <> k -> getProp (setProp o k v) k' = getProp o k'.
Proof.
  intros Hne. unfold setProp.
  destruct (hasProp o k); [apply getProp_replaceProp_other; exact Hne|].
  destruct (arrayIndex k).
  - apply getProp_insertIndexed_other; exact Hne.
  - apply getProp_app_other; exact Hne.
Qed.

(** [Object.assign] leaves a property that the source lacks as it is in the
    target. *)
Lemma assignFrom_missing (fields : object) (target : object) (k : string) :
  hasProp fields k = false ->
  getProp (assignFrom target (VObj fields)) k = getProp target k.
Proof.
  unfold assignFrom. simpl. revert target.
  induction fields as [|[key x] rest IH]; intros target Hmissing; simpl in *;
    [reflexivity|].
  apply orb_false_elim in Hmissing as [Hkey Hrest].
  rewrite (IH _ Hrest). apply getProp_setProp_other.
  apply String.eqb_neq. exact Hkey.
Qed.

(** What the old engine does to an endpoint,
    [Object.assign({}, defaultTransform, endpoint)], gives a component that
    the endpoint lacks the value of the default transform. *)
Lemma old_endpoint_filled_from_default (endpoint : object) (k : string) :
  hasProp endpoint k = false ->
  getProp (objectAssign [] [VObj defaultTransformOld; VObj endpoint]) k
  = getProp defaultTransformOld k.
Proof.
  intros Hmissing. unfold objectAssign. simpl fold_left.
  rewrite (assignFrom_missing endpoint _ k Hmissing). reflexivity.
Qed.

(** C3, on both engines. The default transform holds 0 for [scale],
    [scaleX] and [scaleY], not the identity 1; so between the keyframes
    [translateX(10)] and [scale(2)], at progress 1/2, the scale is 1 (half
    way from 0 to 2) and not 1.5 (half way from 1). The old engine fills in
    both endpoints from the default ([translateX] goes from 10 to the
    default 0); the current one fills in the from-endpoint only and leaves
    out the components that the to-endpoint lacks. *)
Theorem default_transform_scale_is_zero :
  getProp defaultTransform "scale" = VNum zero
  /\ getProp defaultTransform "scaleX" = VNum zero
  /\ getProp defaultTransform "scaleY" = VNum zero
  /\ getProp defaultTransformOld "scale" = VNum zero
  /\ getProp defaultTransformOld "scaleX" = VNum zero
  /\ getProp defaultTransformOld "scaleY" = VNum zero
  /\ VNum zero <> VNum one
  /\ useAnimations_worklet (R := refRuntime) slideThenScale half
     = Returned [("transform",
                  VArr [VObj [("translateX", vint 5)]; VObj [("scale", vint 1)]])]
  /\ useAnimated_worklet (R := refRuntime) []
       {| animations := [ {| frames := slideThenScale |} ]; transitions := [] |}
       [] [half]
     = Returned [("fontWeight", VUndefined);
                 ("transform", VArr [VObj [("scale", vint 1)]])].
Proof.
  repeat (split; [reflexivity|]).
  split.
  { intros H.
    apply (f_equal (fun v => match v with
                             | VNum (Fin q) => Qnum q
                             | _ => 0%Z
                             end)) in H.
    vm_compute in H. discriminate. }
  split; vm_compute; same_values.
Qed.

(* ================================================================== *)
(** * Further properties *)

(** ** The helpers *)

Lemma takeWhile_app_stop {A} (f : A -> bool) (l1 l2 : list A) :
  forallb f l1 = true ->
  match l2 with [] => True | x :: _ => f x = false end ->
  takeWhile f (l1 ++ l2) = l1.
Proof.
  intros Hall Hstop. induction l1 as [|x l1 IH]; simpl in *.
  - destruct l2 as [|y l2]; simpl; [reflexivity | rewrite Hstop; reflexivity].
  - apply andb_true_iff in Hall as [Hx Hall]. rewrite Hx, (IH Hall). reflexivity.
Qed.

Lemma string_of_list_ascii_inj (a b : string) :
  list_ascii_of_string a = list_ascii_of_string b -> a = b.
Proof.
  intros H. rewrite <- (string_of_list_ascii_of_string a),
              <- (string_of_list_ascii_of_string b), H. reflexivity.
Qed.

(** X1. The unit that the pattern [/[a-z%]+$/] finds in a text is exactly
    its longest end made of lowercase letters and percent signs: the text
    is [before] followed by the unit, the unit is not empty and in the
    class, and [before] is empty or ends outside the class. *)
Theorem matchUnit_is_the_longest_class_suffix (s unit : string) :
  matchUnit s = Some unit
  <-> exists before,
        list_ascii_of_string s = before ++ list_ascii_of_string unit
        /\ unit <> ""
        /\ forallb isUnitChar (list_ascii_of_string unit) = true
        /\ match rev before with [] => True | c :: _ => isUnitChar c = false end.
Proof.
  split; [apply matchUnit_Some|].
  intros [before [Hs [Hne [Hclass Hstop]]]].
  unfold matchUnit, trailingRun. rewrite Hs, rev_app_distr.
  rewrite takeWhile_app_stop.
  - rewrite rev_involutive.
    destruct (list_ascii_of_string unit) as [|c cs] eqn:E.
    + exfalso. apply Hne. apply string_of_list_ascii_inj. exact E.
    + f_equal. rewrite <- E. apply string_of_list_ascii_of_string.
  - rewrite forallb_forall in *. intros x Hx. apply Hclass.
    apply in_rev. exact Hx.
  - exact Hstop.
Qed.

Section MoreHelperFacts.
Context {R : Runtime}.

(** X2. Without the colour flag the current helper and the old one agree
    on endpoints that are not [undefined]. They part on [undefined]: the
    old one takes it for 0 (the default of its parameters), the current
    one returns 0 whenever an endpoint is [undefined]. *)
Theorem helpers_agree_but_on_undefined :
  forall (progress : num) (from to : value),
    (from <> VUndefined -> to <> VUndefined ->
     interpolation progress from to false = interpolateWithUnits progress from to)
    /\ (from = VUndefined \/ to = VUndefined ->
        interpolation progress from to false = VNum zero)
    /\ interpolateWithUnits progress from to
       = interpolateWithUnits progress (orZero from) (orZero to).
Proof.
  intros progress from to. split; [|split].
  - apply interpolation_old.
  - intros [-> | ->].
    + destruct to; reflexivity.
    + destruct from; reflexivity.
  - destruct from, to; reflexivity.
Qed.

(** X3. Without the colour flag the helpers never return anything but a
    number or a text: whatever the endpoints (objects, arrays, booleans,
    [null], [undefined]), none of them comes back. *)
Theorem interpolation_returns_number_or_text :
  forall (progress : num) (from to : value),
    ((exists x, interpolation progress from to false = VNum x)
     \/ (exists s, interpolation progress from to false = VStr s))
    /\ ((exists x, interpolateWithUnits progress from to = VNum x)
        \/ (exists s, interpolateWithUnits progress from to = VStr s)).
Proof.
  intros progress from to.
  assert (Hold : forall a b,
             (exists x, interpolateWithUnits progress a b = VNum x)
             \/ (exists s, interpolateWithUnits progress a b = VStr s)).
  { intros a b. unfold interpolateWithUnits.
    destruct (typeofNumber (orZero a) && typeofNumber (orZero b));
      [left; eexists; reflexivity|].
    destruct ((typeofString (orZero a) && typeofString (orZero b))
              || (typeofString (orZero a) && strictZero (orZero b))).
    { destruct (matchUnitOf (orZero a)); [right | left]; eexists; reflexivity. }
    destruct (typeofString (orZero b) && strictZero (orZero a));
      [|left; eexists; reflexivity].
    destruct (matchUnitOf (orZero b)); [right | left]; eexists; reflexivity. }
  split; [|apply Hold].
  unfold interpolation.
  destruct (typeofNumber from && typeofNumber to);
    [left; eexists; reflexivity|].
  destruct ((typeofString from && typeofString to)
            || (typeofString from && strictZero to)).
  { destruct (matchUnitOf from); [right | left]; eexists; reflexivity. }
  destruct (typeofString to && strictZero from);
    [|left; eexists; reflexivity].
  destruct (matchUnitOf to); [right | left]; eexists; reflexivity.
Qed.

End MoreHelperFacts.

(** X4. [isColorProp] of the current engine holds of exactly the
    properties in [colorTransitions] of the old one, and none of those is
    in [numericTransitions]: no property is typed both ways, whatever the
    order of the tests. *)
Theorem colour_properties_agree :
  forall p : string,
    isColorProp p = setHas colorTransitions p
    /\ (setHas colorTransitions p = true -> setHas numericTransitions p = false).
Proof.
  intros p. split.
  - unfold isColorProp, setHas, colorTransitions. simpl.
    rewrite orb_false_r, !orb_assoc. reflexivity.
  - unfold setHas at 1. intros H. apply existsb_exists in H as [x [Hin Hx]].
    apply String.eqb_eq in Hx. subst x.
    simpl in Hin.
    repeat (destruct Hin as [<- | Hin]; [reflexivity|]).
    contradiction.
Qed.

Lemma colour_properties_agree_witness :
  setHas colorTransitions "color" = true
  /\ setHas numericTransitions "color" = false.
Proof.
  split; [reflexivity|].
  exact (proj2 (colour_properties_agree "color") eq_refl).
Defined.

(** X5. [getValue] on an array that is not empty always finds an element
    of the array, and walks it in a cycle: the index counts modulo the
    length, so fewer values than properties are reused in turn. *)
Theorem getValue_cycles {T} :
  forall (array : list T) (index : nat) (defaultValue : T),
    array <> [] ->
    (exists x, getValue (Some array) index defaultValue = Some x /\ In x array)
    /\ getValue (Some array) (index + List.length array) defaultValue
       = getValue (Some array) index defaultValue
    /\ (index < List.length array ->
        getValue (Some array) index defaultValue = nth_error array index).
Proof.
  intros array index defaultValue Hne. split; [|split].
  - destruct (getValue_nonempty array index defaultValue Hne) as [x Hx].
    exists x. split; [exact Hx|].
    unfold getValue in Hx. destruct (List.length array); [discriminate|].
    eapply nth_error_In. exact Hx.
  - unfold getValue. destruct array as [|a rest]; [contradiction|].
    change (List.length (a :: rest)) with (S (List.length rest)).
    replace (index + S (List.length rest))
      with (index + 1 * S (List.length rest)) by lia.
    rewrite Nat.Div0.mod_add. reflexivity.
  - apply getValue_in_range.
Qed.

Lemma getValue_cycles_witness :
  [milliseconds 100; milliseconds 200] <> []
  /\ getValue (Some [milliseconds 100; milliseconds 200]) (1 + 2) defaultDuration
     = getValue (Some [milliseconds 100; milliseconds 200]) 1 defaultDuration.
Proof.
  split; [discriminate|].
  exact (proj1 (proj2 (getValue_cycles [milliseconds 100; milliseconds 200] 1
                         defaultDuration ltac:(discriminate)))).
Defined.

(** ** Objects *)

Lemma getProp_setProp_same (o : object) (k : string) (v : value) :
  getProp (setProp o k v) k = v.
Proof.
  unfold setProp. destruct (hasProp o k) eqn:Hhas.
  - induction o as [|[key x] rest IH]; simpl in *; [discriminate|].
    destruct (String.eqb k key) eqn:Ek; simpl.
    + rewrite Ek. reflexivity.
    + rewrite Ek. apply IH. exact Hhas.
  - destruct (arrayIndex k) as [i|].
    + induction o as [|[key x] rest IH]; simpl in *.
      * rewrite String.eqb_refl. reflexivity.
      * apply orb_false_elim in Hhas as [Ek Hrest].
        destruct (arrayIndex key) as [m|]; [destruct (m <? i)%N|]; simpl;
          rewrite ?String.eqb_refl, ?Ek; try reflexivity.
        apply IH. exact Hrest.
    + induction o as [|[key x] rest IH]; simpl in *.
      * rewrite String.eqb_refl. reflexivity.
      * apply orb_false_elim in Hhas as [Ek Hrest].
        rewrite Ek. apply IH. exact Hrest.
Qed.

Lemma assignEntries_missing (entries : list (string * value)) (target : object)
      (k : string) :
  hasProp entries k = false ->
  getProp (fold_left (fun t kv => setProp t (fst kv) (snd kv)) entries target) k
  = getProp target k.
Proof.
  revert target.
  induction entries as [|[key x] rest IH]; intros target Hmissing; simpl in *;
    [reflexivity|].
  apply orb_false_elim in Hmissing as [Hkey Hrest].
  rewrite (IH _ Hrest). apply getProp_setProp_other.
  apply String.eqb_neq. exact Hkey.
Qed.

Lemma indexKey_digitHead (i : nat) : digitHead (indexKey i) = true.
Proof.
  unfold indexKey. destruct (Nat.to_uint i); reflexivity.
Qed.

Lemma hasProp_indexed (l : list value) (start : nat) (k : string) :
  digitHead k = false -> hasProp (indexed start l) k = false.
Proof.
  intros Hk. revert start.
  induction l as [|x l IH]; intros start; simpl; [reflexivity|].
  rewrite IH, orb_false_r. apply String.eqb_neq. intros ->.
  rewrite indexKey_digitHead in Hk. discriminate.
Qed.

(** A source that is not a plain object has index keys only. *)
Lemma ownEntries_index_keys (source : value) (k : string) :
  notObject source = true ->
  digitHead k = false ->
  hasProp (ownEntries source) k = false.
Proof.
  intros Hsource Hk.
  destruct source; simpl in *; try reflexivity; try discriminate;
    apply hasProp_indexed; exact Hk.
Qed.

(** ** The per-frame computation of the current engine *)

Section MoreWorkletFacts.
Context {R : Runtime}.

(** X6. With no dependencies the per-frame computation returns the base
    style with [fontWeight] forced to a text: the result always has a
    [fontWeight] that is a text or [undefined], a numeric [fontWeight]
    becomes the text of the number, and every other property is that of
    the base style. *)
Theorem fontWeight_is_forced_to_text :
  forall (style : Style) (schema : Schema),
    exists result,
      useAnimated_worklet style schema [] [] = Returned result
      /\ (getProp result "fontWeight" = VUndefined
          \/ exists text, getProp result "fontWeight" = VStr text)
      /\ (forall x, getProp style "fontWeight" = VNum x ->
                    getProp result "fontWeight" = VStr (numToString x))
      /\ (forall k, k <> "fontWeight" -> getProp result k = getProp style k).
Proof.
  intros style schema. exists (coerceFontWeight style).
  split; [reflexivity|]. unfold coerceFontWeight.
  split; [|split].
  - rewrite getProp_setProp_same.
    destruct (getProp style "fontWeight");
      try (left; reflexivity); right; eexists; reflexivity.
  - intros x Hx. rewrite getProp_setProp_same, Hx. reflexivity.
  - intros k Hk. apply getProp_setProp_other. exact Hk.
Qed.

(** X7. A transition on [fontWeight] undoes that: with a tracked pair of
    two numbers for [fontWeight] and no animation, the computation returns
    a numeric [fontWeight], the interpolated number. *)
Theorem fontWeight_transition_gives_a_number :
  forall (style : Style) (progress from to : num),
    exists result,
      useAnimated_worklet style
        {| animations := [];
           transitions := [ {| prop := "fontWeight";
                               output := (VNum from, VNum to) |} ] |}
        [progress] []
      = Returned result
      /\ getProp result "fontWeight" = VNum (interpolate progress from to).
Proof.
  intros style progress from to. eexists. split; [reflexivity|].
  simpl. apply getProp_setProp_same.
Qed.

Lemma worklet_entry_not_iterable style frameProgress fromStyles result key toValue :
  spread toValue = None ->
  worklet_entry style frameProgress fromStyles result (key, toValue) = None.
Proof.
  intros Hspread. unfold worklet_entry. rewrite Hspread.
  destruct (spread (nullish (getProp style "transform") (VArr []))); reflexivity.
Qed.

Lemma worklet_entries_not_iterable style frameProgress fromStyles entries key toValue :
  In (key, toValue) entries ->
  spread toValue = None ->
  forall result,
    worklet_entries style frameProgress fromStyles entries result = None.
Proof.
  intros Hin Hspread.
  induction entries as [|entry rest IH]; intros result; [contradiction|].
  simpl. destruct Hin as [-> | Hin].
  - rewrite worklet_entry_not_iterable by exact Hspread. reflexivity.
  - destruct (worklet_entry style frameProgress fromStyles result entry);
      [apply IH; exact Hin | reflexivity].
Qed.

(** X8. Between two frames, the first animation slot throws a TypeError as
    soon as the to-frame holds a property whose value cannot be spread (a
    number, a boolean, [null], an object): every property of the to-frame
    is taken for a transform list. *)
Theorem frame_with_a_plain_value_throws :
  forall (style : Style) (schema : Schema) (transitionProgress after : list num)
         (progress : num) (fromFrame toFrame : Keyframe)
         (key : string) (toValue : value),
    let frames := framesAt (animations schema) 0 in
    num_eqb progress zero = false ->
    num_eqb progress (num_of_Z (Z.of_nat (List.length frames) - 1)) = false ->
    at_ frames (mathFloor progress) = Some fromFrame ->
    at_ frames (mathCeil progress) = Some toFrame ->
    In (key, toValue) (kf_style toFrame) ->
    spread toValue = None ->
    useAnimated_worklet style schema transitionProgress (progress :: after)
    = Threw TypeError.
Proof.
  intros style schema transitionProgress after progress fromFrame toFrame
         key toValue frames Hzero Hlast Hfrom Hto Hin Hspread.
  unfold useAnimated_worklet. simpl. unfold worklet_animation.
  fold frames. rewrite Hzero, Hlast, Hfrom, Hto.
  rewrite (worklet_entries_not_iterable _ _ _ _ key toValue Hin Hspread).
  reflexivity.
Qed.

Lemma worklet_entry_writes_transform style frameProgress fromStyles result entry result' :
  worklet_entry style frameProgress fromStyles result entry = Some result' ->
  forall k, k <> "transform" -> getProp result' k = getProp result k.
Proof.
  unfold worklet_entry. destruct entry as [key toValue].
  destruct (spread (nullish (getProp style "transform") (VArr [])));
    [|discriminate].
  destruct (spread toValue); [|discriminate].
  intros H k Hk. injection H as <-. apply getProp_setProp_other. exact Hk.
Qed.

(** X9. A turn of the animations loop that passes has written nothing
    but [transform]: whatever properties the frames hold, every other
    property of the result is as it was before the turn. *)
Theorem animation_turn_writes_transform_only :
  forall (style : Style) (animations : list AnimationSchema) (index : nat)
         (progress : num) (result result' : object),
    worklet_animation style animations index progress result = Continue result' ->
    forall k, k <> "transform" -> getProp result' k = getProp result k.
Proof.
  intros style animations index progress result result' Hturn k Hk.
  unfold worklet_animation in Hturn.
  destruct (num_eqb progress zero).
  { destruct (nth_error _ 0); discriminate. }
  destruct (num_eqb progress _).
  { destruct (at_ _ _); discriminate. }
  destruct (at_ _ (mathFloor progress)) as [fromFrame|];
    [|injection Hturn as <-; reflexivity].
  destruct (at_ _ (mathCeil progress)) as [toFrame|];
    [|injection Hturn as <-; reflexivity].
  destruct (worklet_entries style (mod1 progress) (kf_style fromFrame)
              (kf_style toFrame) result) as [final|] eqn:Hentries;
    [|discriminate].
  injection Hturn as <-.
  revert result Hentries.
  induction (kf_style toFrame) as [|entry rest IH]; intros result Hentries;
    simpl in Hentries.
  - injection Hentries as <-. reflexivity.
  - destruct (worklet_entry style (mod1 progress) (kf_style fromFrame) result entry)
      as [next|] eqn:Hentry; [|discriminate].
    rewrite (IH next Hentries).
    apply (worklet_entry_writes_transform _ _ _ _ _ _ Hentry). exact Hk.
Qed.

End MoreWorkletFacts.

Lemma frame_with_a_plain_value_throws_witness :
  useAnimated_worklet (R := refRuntime) [] fadeThenGrow [] (half :: [])
  = Threw TypeError.
Proof.
  apply (frame_with_a_plain_value_throws (R := refRuntime) [] fadeThenGrow [] []
           half (frame [("opacity", vint 0)]) (frame [("opacity", vint 1)])
           "opacity" (vint 1));
    try reflexivity.
  left. reflexivity.
Defined.

Lemma animation_turn_writes_transform_only_witness :
  worklet_animation (R := refRuntime) []
    [ {| frames := slideThenScale |} ] 0 half [("opacity", vint 1)]
  = Continue [("opacity", vint 1);
              ("transform", VArr [VObj [("scale", VNum (linear half zero (num_of_Z 2)))]])]
  /\ getProp [("opacity", vint 1);
              ("transform", VArr [VObj [("scale", VNum (linear half zero (num_of_Z 2)))]])]
       "opacity"
     = getProp [("opacity", vint 1)] "opacity".
Proof.
  assert (Hturn :
            worklet_animation (R := refRuntime) []
              [ {| frames := slideThenScale |} ] 0 half [("opacity", vint 1)]
            = Continue [("opacity", vint 1);
                        ("transform",
                         VArr [VObj [("scale",
                                      VNum (linear half zero (num_of_Z 2)))]])]).
  { reflexivity. }
  split; [exact Hturn|].
  apply (animation_turn_writes_transform_only (R := refRuntime) _ _ _ _ _ _ Hturn).
  discriminate.
Defined.

Section FromFrameFacts.
Context {R : Runtime}.

Lemma objectAssign_last (target : object) (sources : list value) (last : value) :
  objectAssign target (sources ++ [last])
  = assignFrom (objectAssign target sources) last.
Proof. unfold objectAssign. rewrite fold_left_app. reflexivity. Qed.

(** X10. In the current engine the from-frame does not reach the
    interpolation: its value for the property is handed to [Object.assign]
    unspread, so whenever it is not a plain object (a transform list is an
    array) and the components of the to-frame are named by keys that do
    not start with a digit, the entry computed is the same for every
    from-frame. Each component starts from the base style or the default
    transform. *)
Theorem from_frame_is_ignored :
  forall (style : Style) (frameProgress : num) (fromStyles fromStyles' : Style)
         (result : object) (key : string) (toValue : value),
    notObject (getProp fromStyles key) = true ->
    notObject (getProp fromStyles' key) = true ->
    (forall toItems k,
        spread toValue = Some toItems ->
        In k (objectKeys (objectAssign [] toItems)) ->
        digitHead k = false) ->
    worklet_entry style frameProgress fromStyles result (key, toValue)
    = worklet_entry style frameProgress fromStyles' result (key, toValue).
Proof.
  intros style frameProgress fromStyles fromStyles' result key toValue
         Hfrom Hfrom' Hkeys.
  unfold worklet_entry.
  destruct (spread (nullish (getProp style "transform") (VArr [])))
    as [styleTransform|]; [|reflexivity].
  destruct (spread toValue) as [toItems|]; [|reflexivity].
  do 3 f_equal. apply map_ext_in. intros k Hk.
  specialize (Hkeys toItems k eq_refl Hk).
  do 3 f_equal.
  change (VObj defaultTransform :: styleTransform ++ [getProp fromStyles key])
    with ((VObj defaultTransform :: styleTransform) ++ [getProp fromStyles key]).
  change (VObj defaultTransform :: styleTransform ++ [getProp fromStyles' key])
    with ((VObj defaultTransform :: styleTransform) ++ [getProp fromStyles' key]).
  rewrite !objectAssign_last. unfold assignFrom.
  rewrite !assignEntries_missing
    by (apply ownEntries_index_keys; assumption).
  reflexivity.
Qed.

End FromFrameFacts.

Lemma from_frame_is_ignored_witness :
  worklet_entry (R := refRuntime) [] half
    [("transform", VArr [VObj [("scale", vint 1)]])] []
    ("transform", VArr [VObj [("scale", vint 2)]])
  = worklet_entry (R := refRuntime) [] half
      [("transform", VArr [VObj [("scale", vint 5)]])] []
      ("transform", VArr [VObj [("scale", vint 2)]]).
Proof.
  apply (from_frame_is_ignored (R := refRuntime)); try reflexivity.
  intros toItems k Hspread Hin. injection Hspread as <-.
  destruct Hin as [<- | []]. reflexivity.
Defined.

(** ** A render followed by a frame *)

Section RenderThenFrame.
Context {R : Runtime}.
Variable animationMap : string -> option ExtractedAnimation.

Lemma first_render_first_slot style meta options name rest :
  animationNamesOf meta = name :: rest ->
  let hooks := useSchema animationMap firstRender style meta options in
  (exists slots,
      animations (schema hooks)
      = {| frames := map (flattenFrame options)
                         (frames_of (keyframesFor animationMap name)) |}
        :: slots)
  /\ exists cells,
       map current (dependencies_animations hooks) = zero :: cells.
Proof.
  intros Hnames hooks. subst hooks. unfold useSchema. rewrite Hnames. simpl.
  split; eexists; reflexivity.
Qed.

(** X11. The first frame after the first render, when the first animation
    name has no keyframes ([{ type: "none" }], or a name that the map does
    not hold): the schedule has the empty frames of the default animation
    for it, its progress is 0, and the per-frame computation throws a
    TypeError, reading the style of a frame that is not there. *)
Theorem default_animation_throws_on_first_frame :
  forall (style : Style) (meta : option StyleMeta) (options : FlattenStyleOptions)
         (name : AnimationName) (rest : list AnimationName),
    animationNamesOf meta = name :: rest ->
    withoutKeyframes animationMap name ->
    animatedFrame (useSchema animationMap firstRender style meta options) style
    = Threw TypeError.
Proof.
  intros style meta options name rest Hnames Hname.
  destruct (first_render_first_slot style meta options name rest Hnames)
    as [[slots Hslots] [cells Hcells]].
  unfold animatedFrame, useAnimated_worklet. rewrite Hcells, Hslots.
  rewrite (keyframesFor_default animationMap name Hname). reflexivity.
Qed.

(** X12. The first frame after the first render, when the first animation
    has keyframes: the computation returns exactly the flattened style of
    its first keyframe, so neither the base style nor any transition of
    that render shows in it. *)
Theorem first_frame_is_the_first_keyframe :
  forall (style : Style) (meta : option StyleMeta) (options : FlattenStyleOptions)
         (value : string) (rest : list AnimationName)
         (keyframes : ExtractedAnimation)
         (first : ExtractedFrame) (others : list ExtractedFrame),
    animationNamesOf meta = NameIdent value :: rest ->
    animationMap value = Some keyframes ->
    frames_of keyframes = first :: others ->
    animatedFrame (useSchema animationMap firstRender style meta options) style
    = Returned (flattenStyle (extracted_style first) options).
Proof.
  intros style meta options value rest keyframes first others Hnames Hmap Hframes.
  destruct (first_render_first_slot style meta options (NameIdent value) rest Hnames)
    as [[slots Hslots] [cells Hcells]].
  unfold animatedFrame, useAnimated_worklet. rewrite Hcells, Hslots.
  simpl keyframesFor. rewrite Hmap, Hframes. reflexivity.
Qed.

End RenderThenFrame.

Lemma default_animation_throws_on_first_frame_witness :
  animationNamesOf (animationsOf [NameIdent "spin"]) = [NameIdent "spin"]
  /\ withoutKeyframes noAnimations (NameIdent "spin")
  /\ animatedFrame (R := refRuntime)
       (useSchema noAnimations firstRender [("opacity", vint 1)]
          (animationsOf [NameIdent "spin"]) noOptions)
       [("opacity", vint 1)]
     = Threw TypeError.
Proof.
  split; [reflexivity|]. split; [reflexivity|].
  exact (default_animation_throws_on_first_frame (R := refRuntime) noAnimations
           [("opacity", vint 1)] (animationsOf [NameIdent "spin"]) noOptions
           (NameIdent "spin") [] eq_refl eq_refl).
Defined.

Lemma first_frame_is_the_first_keyframe_witness :
  animationNamesOf (animationsOf [NameIdent "spin"]) = [NameIdent "spin"]
  /\ spinMap "spin" = Some spin
  /\ animatedFrame (R := refRuntime)
       (useSchema spinMap firstRender [("opacity", vint 1)]
          (animationsOf [NameIdent "spin"]) noOptions)
       [("opacity", vint 1)]
     = Returned [("transform", VArr [VObj [("rotate", VStr "0deg")]])].
Proof.
  split; [reflexivity|]. split; [reflexivity|].
  exact (first_frame_is_the_first_keyframe (R := refRuntime) spinMap
           [("opacity", vint 1)] (animationsOf [NameIdent "spin"]) noOptions
           "spin" [] spin _ _ eq_refl eq_refl eq_refl).
Defined.

(** ** The per-frame computation of the old engine *)

Lemma at_nil {A} (x : num) : at_ (@nil A) x = None.
Proof.
  unfold at_. destruct x as [|q]; [reflexivity|].
  destruct (isInteger q && (0 <=? Qfloor q)%Z); [|reflexivity].
  destruct (Z.to_nat (Qfloor q)); reflexivity.
Qed.

Section OldWorkletFacts.
Context {R : Runtime}.

(** X13. On an empty list of keyframes (a name that the animation map
    does not hold) the old per-frame computation throws a TypeError at
    every progress. *)
Theorem old_worklet_throws_without_keyframes :
  forall progress : num, useAnimations_worklet [] progress = Threw TypeError.
Proof.
  intros progress. unfold useAnimations_worklet.
  destruct (num_eqb progress zero); [reflexivity|].
  destruct (num_eqb progress _); rewrite at_nil; reflexivity.
Qed.

Lemma searchPrevious_finds_nothing fromStyles key turns :
  getProp fromStyles key = VUndefined ->
  searchPrevious fromStyles key turns VUndefined = VUndefined.
Proof.
  intros Hmissing. induction turns as [|turns IH]; simpl; [reflexivity|].
  rewrite Hmissing. simpl. exact IH.
Qed.

(** X14. The old engine's search through the previous styles never finds
    anything: it reads the from-frame on every turn. A property that the
    from-frame lacks is therefore interpolated from 0, whatever the
    earlier frames hold and however many there are. *)
Theorem missing_from_value_counts_as_zero :
  forall (frameProgress from : num) (fromStyles : Style) (style : object)
         (key : string) (toValue : value),
    getProp fromStyles key = VUndefined ->
    key <> "transform" ->
    oldEntry frameProgress from fromStyles style (key, toValue)
    = Some (setProp style key
              (interpolateWithUnits frameProgress (VNum zero) toValue)).
Proof.
  intros frameProgress from fromStyles style key toValue Hmissing Hkey.
  unfold oldEntry. rewrite Hmissing.
  rewrite (searchPrevious_finds_nothing _ _ _ Hmissing).
  apply String.eqb_neq in Hkey. rewrite Hkey. reflexivity.
Qed.

End OldWorkletFacts.

Lemma missing_from_value_counts_as_zero_witness :
  getProp [("width", vint 10)] "opacity" = VUndefined
  /\ "opacity" <> "transform"
  /\ oldEntry (R := refRuntime) half zero [("width", vint 10)] []
       ("opacity", vint 1)
     = Some (setProp [] "opacity"
               (interpolateWithUnits half (VNum zero) (vint 1))).
Proof.
  split; [reflexivity|]. split; [discriminate|].
  apply (missing_from_value_counts_as_zero (R := refRuntime));
    [reflexivity | discriminate].
Defined.

(** ** The transform lists of the old engine *)

Lemma hasProp_In (o : object) (k : string) :
  hasProp o k = true <-> In k (objectKeys o).
Proof.
  induction o as [|[key x] rest IH]; simpl.
  - split; [discriminate | contradiction].
  - rewrite orb_true_iff, IH, String.eqb_eq. split; intros [H | H]; auto.
Qed.

Lemma objectKeys_replaceProp (o : object) (k : string) (v : value) :
  objectKeys (replaceProp o k v) = objectKeys o.
Proof.
  induction o as [|[key x] rest IH]; simpl; [reflexivity|].
  destruct (String.eqb k key); simpl; [reflexivity | rewrite IH; reflexivity].
Qed.

Lemma insertIndexed_keys (o : object) (i : N) (k : string) (v : value) :
  exists before after,
    o = before ++ after
    /\ insertIndexed o i k v = before ++ (k, v) :: after.
Proof.
  induction o as [|[key x] rest [before [after [Ho Hi]]]]; simpl.
  - exists [], []. split; reflexivity.
  - destruct (arrayIndex key) as [m|]; [destruct (m <? i)%N|].
    + exists ((key, x) :: before), after. simpl. rewrite <- Ho, Hi.
      split; reflexivity.
    + exists [], ((key, x) :: rest). split; reflexivity.
    + exists [], ((key, x) :: rest). split; reflexivity.
Qed.

(** Writing a property keeps the keys of an object distinct. *)
Lemma setProp_NoDup (o : object) (k : string) (v : value) :
  NoDup (objectKeys o) -> NoDup (objectKeys (setProp o k v)).
Proof.
  intros Hnodup. unfold setProp. destruct (hasProp o k) eqn:Hhas.
  - rewrite objectKeys_replaceProp. exact Hnodup.
  - assert (Hnot : ~ In k (objectKeys o)).
    { intros Hin. apply hasProp_In in Hin. congruence. }
    destruct (arrayIndex k) as [i|].
    + destruct (insertIndexed_keys o i k v) as [before [after [Ho Hi]]].
      rewrite Hi. subst o. unfold objectKeys in *.
      rewrite map_app in *. simpl.
      apply (NoDup_Add (Add_app k (map fst before) (map fst after))).
      split; assumption.
    + unfold objectKeys in *. rewrite map_app. simpl.
      apply (NoDup_Add (Add_app k (map fst o) [])).
      rewrite app_nil_r. split; assumption.
Qed.

Lemma assignFrom_NoDup (target : object) (source : value) :
  NoDup (objectKeys target) -> NoDup (objectKeys (assignFrom target source)).
Proof.
  unfold assignFrom. generalize (ownEntries source) as entries. intros entries.
  revert target. induction entries as [|kv rest IH]; intros target Hnodup; simpl.
  - exact Hnodup.
  - apply IH. apply setProp_NoDup. exact Hnodup.
Qed.

(** What [Object.assign] builds from nothing has distinct keys. *)
Lemma objectAssign_NoDup (sources : list value) :
  NoDup (objectKeys (objectAssign [] sources)).
Proof.
  unfold objectAssign.
  assert (H : forall target, NoDup (objectKeys target) ->
                             NoDup (objectKeys (fold_left assignFrom sources target))).
  { induction sources as [|source rest IH]; intros target Hnodup; simpl.
    - exact Hnodup.
    - apply IH. apply assignFrom_NoDup. exact Hnodup. }
  apply H. constructor.
Qed.

(** [Object.assign] gives a property of a source with distinct keys the
    value that the source has for it. *)
Lemma assignEntries_present (entries : list (string * value)) (target : object)
      (k : string) :
  NoDup (map fst entries) ->
  hasProp entries k = true ->
  getProp (fold_left (fun t kv => setProp t (fst kv) (snd kv)) entries target) k
  = getProp entries k.
Proof.
  revert target.
  induction entries as [|[key x] rest IH]; intros target Hnodup Hhas;
    simpl in *; [discriminate|].
  inversion Hnodup as [|? ? Hnotin Hrest]; subst.
  destruct (String.eqb k key) eqn:Ek.
  - apply String.eqb_eq in Ek. subst key.
    rewrite assignEntries_missing.
    + apply getProp_setProp_same.
    + destruct (hasProp rest k) eqn:E; [|reflexivity].
      exfalso. apply Hnotin. apply hasProp_In in E. exact E.
  - simpl in Hhas. apply IH; assumption.
Qed.

Lemma dedup_spec (keys seen : list string) :
  NoDup (dedup seen keys)
  /\ forall k, In k (dedup seen keys) <-> In k keys /\ ~ In k seen.
Proof.
  revert seen. induction keys as [|key rest IH]; intros seen; simpl.
  - split; [constructor | intros k; tauto].
  - destruct (existsb (String.eqb key) seen) eqn:Eseen.
    + destruct (IH seen) as [Hnodup Hin]. split; [exact Hnodup|].
      intros k. rewrite Hin. split; [tauto|].
      intros [[<- | Hk] Hnot]; [|tauto].
      exfalso. apply Hnot. apply existsb_exists in Eseen as [x [Hx Ex]].
      apply String.eqb_eq in Ex. subst x. exact Hx.
    + destruct (IH (key :: seen)) as [Hnodup Hin].
      assert (Hnew : ~ In key seen).
      { intros Hk. assert (existsb (String.eqb key) seen = true); [|congruence].
        apply existsb_exists. exists key. split; [exact Hk | apply String.eqb_refl]. }
      split.
      * constructor; [|exact Hnodup]. rewrite Hin. simpl. tauto.
      * intros k. simpl. rewrite Hin. simpl. split.
        -- intros [<- | [Hk Hnot]]; [tauto|]. split; [tauto|]. tauto.
        -- intros [[<- | Hk] Hnot]; [tauto|].
           destruct (string_dec key k) as [-> | Hne]; [tauto|]. right. tauto.
Qed.

Lemma old_endpoint_filledIn (endpointItems : list value) (k : string) :
  getProp (objectAssign []
             [VObj defaultTransformOld; VObj (objectAssign [] endpointItems)]) k
  = filledIn defaultTransformOld (objectAssign [] endpointItems) k.
Proof.
  set (endpoint := objectAssign [] endpointItems).
  unfold filledIn, objectAssign at 1. simpl fold_left. unfold assignFrom at 1.
  simpl ownEntries.
  destruct (hasProp endpoint k) eqn:Hhas.
  - apply assignEntries_present; [|exact Hhas].
    apply objectAssign_NoDup.
  - rewrite (assignEntries_missing endpoint _ k Hhas). reflexivity.
Qed.

Section OldTransformFacts.
Context {R : Runtime}.

(** X15. The [transform] entry of the old engine, for two transform lists
    and no transform written yet: it holds exactly one entry for every
    component that either endpoint has, in the order of first appearance,
    and the entry of a component is the interpolation between its values
    at the two endpoints, each the endpoint's own value when the endpoint
    has the component and the value of the default transform otherwise. *)
Theorem old_transform_fills_both_endpoints :
  forall (frameProgress : num) (style : object) (fromItems toItems : list value),
    getProp style "transform" = VUndefined ->
    let from := objectAssign [] fromItems in
    let to := objectAssign [] toItems in
    exists transformKeys,
      oldTransform frameProgress style (VArr fromItems) (VArr toItems)
      = Some (VArr (map (fun k =>
                           VObj [(k, interpolateWithUnits frameProgress
                                       (filledIn defaultTransformOld from k)
                                       (filledIn defaultTransformOld to k))])
                        transformKeys))
      /\ NoDup transformKeys
      /\ forall k, In k transformKeys
                   <-> hasProp from k = true \/ hasProp to k = true.
Proof.
  intros frameProgress style fromItems toItems Hstyle from to.
  exists (dedup [] (objectKeys from ++ objectKeys to)).
  destruct (dedup_spec (objectKeys from ++ objectKeys to) []) as [Hnodup Hin].
  split; [|split].
  - unfold oldTransform. simpl spread. rewrite Hstyle. simpl.
    fold from. fold to. do 2 f_equal. apply map_ext. intros k.
    pose proof (old_endpoint_filledIn fromItems k) as Hfrom.
    pose proof (old_endpoint_filledIn toItems k) as Hto.
    unfold objectAssign at 1 in Hfrom. unfold objectAssign at 1 in Hto.
    simpl fold_left in Hfrom, Hto. fold from in Hfrom. fold to in Hto.
    rewrite Hfrom, Hto. reflexivity.
  - exact Hnodup.
  - intros k. rewrite Hin, in_app_iff, !hasProp_In. simpl. tauto.
Qed.

End OldTransformFacts.

Lemma old_transform_fills_both_endpoints_witness :
  getProp [] "transform" = VUndefined
  /\ exists transformKeys,
       oldTransform (R := refRuntime) half []
         (VArr [VObj [("translateX", vint 10)]]) (VArr [VObj [("scale", vint 2)]])
       = Some (VArr (map (fun k =>
                            VObj [(k, interpolateWithUnits half
                                        (filledIn defaultTransformOld
                                           (objectAssign [] [VObj [("translateX", vint 10)]]) k)
                                        (filledIn defaultTransformOld
                                           (objectAssign [] [VObj [("scale", vint 2)]]) k))])
                         transformKeys))
       /\ NoDup transformKeys
       /\ forall k, In k transformKeys
                    <-> hasProp (objectAssign [] [VObj [("translateX", vint 10)]]) k = true
                        \/ hasProp (objectAssign [] [VObj [("scale", vint 2)]]) k = true.
Proof.
  split; [reflexivity|].
  exact (old_transform_fills_both_endpoints (R := refRuntime) half []
           [VObj [("translateX", vint 10)]] [VObj [("scale", vint 2)]] eq_refl).
Defined.

(** ** More on the schedule builder *)

Lemma hookAt_map {A B} (f : A -> B) (l : list A) (j : nat) (x : A) (d : B) :
  nth_error l j = Some x -> hookAt (map f l) j d = f x.
Proof.
  intros Hnth. unfold hookAt. apply nth_error_nth.
  rewrite nth_error_map, Hnth. reflexivity.
Qed.

Section MoreScheduleFacts.
Context {R : Runtime}.
Variable animationMap : string -> option ExtractedAnimation.

(** X16. The current tracker restarts a tracked transition on every
    render, whether or not the value has changed: the pair is shifted to
    (previous target, current value), the progress cell is set to 0 and
    driven to 1 over 1000 ms. *)
Theorem every_render_restarts_tracked_transitions :
  forall hooks style meta options index prop previous,
    nth_error (transitionsOf meta) index = Some prop ->
    nth_error (transitions (schema hooks)) index = Some previous ->
    let hooks' := useSchema animationMap hooks style meta options in
    nth_error (transitions (schema hooks')) index
    = Some {| prop := prop;
              output := (snd (output previous), getProp style prop) |}
    /\ nth_error (dependencies_transitions hooks') index
       = Some (restart (hookAt (dependencies_transitions hooks) index freshCell)
                 (num_of_Z 1000))
    /\ (getProp style prop = snd (output previous) ->
        nth_error (transitions (schema hooks')) index
        = Some {| prop := prop;
                  output := (getProp style prop, getProp style prop) |}).
Proof.
  intros hooks style meta options index prop previous Hprop Hprevious hooks'.
  destruct (useSchema_shifts_tracked_pair animationMap hooks style meta options
              index prop previous Hprop Hprevious) as [Hpair Hcell].
  fold hooks' in Hpair, Hcell.
  split; [exact Hpair|]. split; [exact Hcell|].
  intros Hsame. rewrite Hpair, Hsame. reflexivity.
Qed.

(** X17. The pairs of the current tracker are stored without gaps, so a
    property that has no value on the first render shifts the pairs of the
    properties after it: when the first transition property is
    [undefined] and the second has the value [v], the pair [(v, v)] of the
    second is stored first, and the next render takes it for the pair of
    the first property, which then goes from [v] to its own value. *)
Theorem pair_of_next_property_is_taken :
  forall (style style' : Style) (meta : option StyleMeta)
         (options options' : FlattenStyleOptions)
         (first second : string) (others : list string),
    transitionsOf meta = first :: second :: others ->
    getProp style first = VUndefined ->
    getProp style second <> VUndefined ->
    getProp style second <> VNull ->
    let hooks := useSchema animationMap firstRender style meta options in
    let hooks' := useSchema animationMap hooks style' meta options' in
    nth_error (transitions (schema hooks)) 0
    = Some {| prop := second;
              output := (getProp style second, getProp style second) |}
    /\ nth_error (transitions (schema hooks')) 0
       = Some {| prop := first;
                 output := (getProp style second, getProp style' first) |}.
Proof.
  intros style style' meta options options' first second others
         Hprops Hfirst Hundefined Hnull hooks hooks'.
  assert (Hstored :
            nth_error (transitions (schema hooks)) 0
            = Some {| prop := second;
                      output := (getProp style second, getProp style second) |}).
  { assert (Hskip : transitionSlot style firstRender 0 first
                     = {| tslot_schema := None;
                          tslot_progress := freshCell;
                          tslot_updated := false |}).
    { unfold transitionSlot. simpl. rewrite Hfirst. reflexivity. }
    subst hooks. unfold useSchema. rewrite Hprops. simpl transitionsLoop.
    rewrite Hskip.
    rewrite (transitionSlot_starts style firstRender 1 second eq_refl
               Hundefined Hnull).
    simpl. rewrite orb_true_r. reflexivity. }
  split; [exact Hstored|].
  subst hooks'.
  destruct (useSchema_shifts_tracked_pair animationMap hooks style' meta options'
              0 first _ ltac:(rewrite Hprops; reflexivity) Hstored)
    as [Hpair _].
  exact Hpair.
Qed.

Lemma animationSlot_kept options name progress memo :
  exists deps kept,
    slot_memo (animationSlot animationMap options name progress memo)
    = Some (deps, kept)
    /\ (ref deps =? ref (keyframesFor animationMap name))%nat = true
    /\ slot_schema (animationSlot animationMap options name progress memo)
       = {| frames := kept |}.
Proof.
  unfold animationSlot.
  destruct memo as [[deps kept]|].
  - destruct (ref deps =? ref (keyframesFor animationMap name))%nat eqn:E.
    + exists deps, kept. repeat split; assumption || reflexivity.
    + eexists _, _. repeat split; simpl; apply Nat.eqb_refl || reflexivity.
  - eexists _, _. repeat split; simpl; apply Nat.eqb_refl || reflexivity.
Qed.

Lemma animationSlot_settles options options' name progress memo :
  let slot := animationSlot animationMap options name progress memo in
  animationSlot animationMap options' name (slot_progress slot) (slot_memo slot)
  = settled slot.
Proof.
  intros slot.
  destruct (animationSlot_kept options name progress memo)
    as [deps [kept [Hmemo [Href Hschema]]]].
  fold slot in Hmemo, Hschema.
  unfold animationSlot at 1. rewrite Hmemo, Href.
  unfold settled. rewrite Hschema, Hmemo. reflexivity.
Qed.

Lemma animationsLoop_settles options options' hooks hooks' names start :
  (forall j slot,
      nth_error (animationsLoop animationMap options hooks names start) j = Some slot ->
      hookAt (dependencies_animations hooks') (start + j) freshCell
      = slot_progress slot
      /\ hookAt (memo_frames hooks') (start + j) None = slot_memo slot) ->
  animationsLoop animationMap options' hooks' names start
  = map settled (animationsLoop animationMap options hooks names start).
Proof.
  revert start. induction names as [|name rest IH]; intros start Hstored; simpl.
  - reflexivity.
  - destruct (Hstored 0 _ eq_refl) as [Hprogress Hmemo].
    rewrite Nat.add_0_r in Hprogress, Hmemo.
    rewrite Hprogress, Hmemo, animationSlot_settles. f_equal.
    apply IH. intros j slot Hj.
    replace (S start + j) with (start + S j) by lia.
    apply Hstored. exact Hj.
Qed.

(** X18. A render that follows a render with the same animation names and
    animation map, and no transition property, changes nothing, whatever
    the style and the options it is given: no frame is flattened again
    (the frames keep the options of the render that computed them), no
    progress cell is touched, and the schedule stays as it is. *)
Theorem rerender_without_transitions_changes_nothing :
  forall hooks style style' meta options options',
    transitionsOf meta = [] ->
    useSchema animationMap
      (useSchema animationMap hooks style meta options) style' meta options'
    = useSchema animationMap hooks style meta options.
Proof.
  intros hooks style style' meta options options' Hnone.
  set (hooks1 := useSchema animationMap hooks style meta options).
  set (slots := animationsLoop animationMap options hooks (animationNamesOf meta) 0).
  assert (Hloop : animationsLoop animationMap options' hooks1 (animationNamesOf meta) 0
                  = map settled slots).
  { apply animationsLoop_settles. fold slots. intros j slot Hj.
    subst hooks1. unfold useSchema. fold slots. simpl.
    split; apply hookAt_map; exact Hj. }
  unfold useSchema at 1. rewrite Hloop, Hnone. simpl transitionsLoop.
  assert (Hquiet : forall l, existsb slot_updated (map settled l) = false).
  { induction l as [|slot rest IH]; [reflexivity | exact IH]. }
  rewrite Hquiet. simpl.
  subst hooks1. unfold useSchema. fold slots. rewrite Hnone. simpl.
  rewrite !map_map. simpl. f_equal.
Qed.

End MoreScheduleFacts.

Lemma every_render_restarts_tracked_transitions_witness :
  let meta := transitionOf ["opacity"] 250 in
  let hooks :=
    useSchema (R := refRuntime) noAnimations firstRender [("opacity", vint 1)]
      meta noOptions in
  nth_error (transitionsOf meta) 0 = Some "opacity"
  /\ nth_error (transitions (schema hooks)) 0
     = Some {| prop := "opacity"; output := (vint 1, vint 1) |}
  /\ nth_error
       (transitions
          (schema (useSchema (R := refRuntime) noAnimations hooks
                     [("opacity", vint 1)] meta noOptions))) 0
     = Some {| prop := "opacity"; output := (vint 1, vint 1) |}.
Proof.
  cbv zeta. split; [reflexivity|]. split; [reflexivity|].
  exact (proj1 (every_render_restarts_tracked_transitions (R := refRuntime)
                  noAnimations
                  (useSchema (R := refRuntime) noAnimations firstRender
                     [("opacity", vint 1)] (transitionOf ["opacity"] 250) noOptions)
                  [("opacity", vint 1)]
                  (transitionOf ["opacity"] 250) noOptions 0 "opacity"
                  {| prop := "opacity"; output := (vint 1, vint 1) |}
                  eq_refl eq_refl)).
Defined.

Lemma pair_of_next_property_is_taken_witness :
  let meta := transitionOf ["width"; "opacity"] 250 in
  let hooks :=
    useSchema (R := refRuntime) noAnimations firstRender [("opacity", vint 1)]
      meta noOptions in
  transitionsOf meta = ["width"; "opacity"]
  /\ getProp [("opacity", vint 1)] "width" = VUndefined
  /\ nth_error
       (transitions
          (schema (useSchema (R := refRuntime) noAnimations hooks
                     [("width", vint 50); ("opacity", vint 1)] meta noOptions))) 0
     = Some {| prop := "width"; output := (vint 1, vint 50) |}.
Proof.
  cbv zeta. split; [reflexivity|]. split; [reflexivity|].
  refine (proj2 (pair_of_next_property_is_taken (R := refRuntime) noAnimations
                   [("opacity", vint 1)] [("width", vint 50); ("opacity", vint 1)]
                   (transitionOf ["width"; "opacity"] 250) noOptions noOptions
                   "width" "opacity" [] eq_refl eq_refl _ _)); discriminate.
Defined.

Lemma rerender_without_transitions_changes_nothing_witness :
  transitionsOf (animationsOf [NameIdent "spin"]) = []
  /\ useSchema (R := refRuntime) spinMap
       (useSchema spinMap firstRender [] (animationsOf [NameIdent "spin"]) noOptions)
       [("opacity", vint 1)] (animationsOf [NameIdent "spin"]) noOptions
     = useSchema spinMap firstRender [] (animationsOf [NameIdent "spin"]) noOptions.
Proof.
  split; [reflexivity|].
  exact (rerender_without_transitions_changes_nothing (R := refRuntime) spinMap
           firstRender [] [("opacity", vint 1)] (animationsOf [NameIdent "spin"])
           noOptions noOptions eq_refl).
Defined.

(** ** More on the old transition tracker *)

(** X20. The old tracker restarts a tracked transition on every render:
    the pair is shifted to (previous target, current value), the progress
    cell is set to 0 and driven to 1 over the [value] of the duration that
    [getValue] finds for the index, taken as it is, in seconds or in
    milliseconds. *)
Theorem old_tracker_restarts_with_the_raw_duration :
  forall DEV hooks style meta hooks' index prop previous time,
    useTransitions DEV hooks style meta = Returned hooks' ->
    nth_error (transitionsOf meta) index = Some prop ->
    hookAt (outputs hooks) index None = Some previous ->
    getValue (Some (durationsOf meta)) index defaultDuration = Some time ->
    nth_error (outputs hooks') index
    = Some (Some (snd previous, getProp style prop))
    /\ nth_error (progresses hooks') index
       = Some {| current := zero;
                 driver := Some {| toValue := one;
                                   timing_duration := time_value time |} |}.
Proof.
  intros DEV hooks style meta hooks' index prop previous time
         Hrender Hprop Hprevious Htime.
  exact (useTransitions_shifts_tracked_pair DEV hooks style meta hooks' index
           prop previous time Hrender Hprop Hprevious Htime).
Qed.

Lemma old_tracker_restarts_with_the_raw_duration_witness :
  let seconds := {| time_type := "seconds"; time_value := num_of_Z 2 |} in
  let meta :=
    Some {| meta_animations := None;
            meta_transition := Some {| property := Some ["opacity"];
                                       duration := Some [seconds] |} |} in
  let hooks :=
    hooksOf (useTransitions true beforeFirstRender [("opacity", vint 0)] meta) in
  let hooks' := hooksOf (useTransitions true hooks [("opacity", vint 1)] meta) in
  useTransitions true hooks [("opacity", vint 1)] meta = Returned hooks'
  /\ nth_error (progresses hooks') 0
     = Some {| current := zero;
               driver := Some {| toValue := one;
                                 timing_duration := num_of_Z 2 |} |}.
Proof.
  cbv zeta.
  set (meta :=
         Some {| meta_animations := None;
                 meta_transition :=
                   Some {| property := Some ["opacity"];
                           duration := Some [ {| time_type := "seconds";
                                                 time_value := num_of_Z 2 |} ] |} |}).
  set (hooks :=
         hooksOf (useTransitions true beforeFirstRender [("opacity", vint 0)] meta)).
  assert (Hrender :
            useTransitions true hooks [("opacity", vint 1)] meta
            = Returned (hooksOf (useTransitions true hooks [("opacity", vint 1)] meta)))
    by reflexivity.
  split; [exact Hrender|].
  exact (proj2 (old_tracker_restarts_with_the_raw_duration true hooks
                  [("opacity", vint 1)] meta _ 0 "opacity" (vint 0, vint 0)
                  {| time_type := "seconds"; time_value := num_of_Z 2 |}
                  Hrender eq_refl eq_refl eq_refl)).
Defined.

Lemma transitionTurns_length style durations hooks properties start turns :
  transitionTurns style durations hooks properties start = Some turns ->
  List.length turns = List.length properties.
Proof.
  revert start turns.
  induction properties as [|prop rest IH]; intros start turns Hturns;
    simpl in Hturns.
  - injection Hturns as <-. reflexivity.
  - destruct (transitionTurn style durations hooks start prop); [|discriminate].
    destruct (transitionTurns style durations hooks rest (S start)) as [more|] eqn:E;
      [|discriminate].
    injection Hturns as <-. simpl. rewrite (IH _ _ E). reflexivity.
Qed.

(** X21. What makes a render of the old tracker throw a TypeError: with
    the number of properties that the first render recorded (or on the
    first render), the render throws exactly when there is a transition
    property and the list of durations is empty; otherwise it returns,
    with one output and one progress cell for every property. *)
Theorem old_tracker_needs_a_duration :
  forall DEV hooks style meta,
    match animatedTyped hooks with
    | Some typed => List.length typed = List.length (transitionsOf meta)
    | None => True
    end ->
    (transitionsOf meta <> [] -> durationsOf meta = [] ->
     useTransitions DEV hooks style meta = Threw TypeError)
    /\ (transitionsOf meta = [] \/ durationsOf meta <> [] ->
        exists hooks',
          useTransitions DEV hooks style meta = Returned hooks'
          /\ List.length (outputs hooks') = List.length (transitionsOf meta)
          /\ List.length (progresses hooks') = List.length (transitionsOf meta)).
Proof.
  intros DEV hooks style meta Hcount.
  assert (Hcheck :
            DEV && negb (List.length (transitionsOf meta)
                         =? List.length
                              match animatedTyped hooks with
                              | Some stored => stored
                              | None => typedProperties (transitionsOf meta)
                              end)%nat = false).
  { destruct (animatedTyped hooks) as [typed|].
    - rewrite Hcount, Nat.eqb_refl. apply andb_false_r.
    - unfold typedProperties. rewrite length_map, Nat.eqb_refl.
      apply andb_false_r. }
  unfold useTransitions. rewrite Hcheck. split.
  - intros Hprops Hdurations. rewrite Hdurations.
    destruct (transitionsOf meta) as [|prop rest]; [contradiction|].
    reflexivity.
  - intros Hok.
    assert (Hturns : exists turns,
               transitionTurns style (durationsOf meta) hooks (transitionsOf meta) 0
               = Some turns
               /\ List.length turns = List.length (transitionsOf meta)).
    { destruct Hok as [Hnil | Hdurations].
      - rewrite Hnil. exists []. split; reflexivity.
      - destruct (transitionTurns_total style (durationsOf meta) hooks
                    (transitionsOf meta) 0 Hdurations) as [turns Hturns].
        exists turns. split; [exact Hturns|].
        apply (transitionTurns_length _ _ _ _ _ _ Hturns). }
    destruct Hturns as [turns [-> Hlen]].
    eexists. split; [reflexivity|]. simpl.
    rewrite !length_map. split; exact Hlen.
Qed.

Lemma old_tracker_needs_a_duration_witness :
  let meta :=
    Some {| meta_animations := None;
            meta_transition := Some {| property := Some ["opacity"];
                                       duration := Some [] |} |} in
  transitionsOf meta <> []
  /\ durationsOf meta = []
  /\ useTransitions true beforeFirstRender [("opacity", vint 1)] meta
     = Threw TypeError.
Proof.
  cbv zeta. split; [discriminate|]. split; [reflexivity|].
  refine (proj1 (old_tracker_needs_a_duration true beforeFirstRender
                   [("opacity", vint 1)]
                   (Some {| meta_animations := None;
                            meta_transition :=
                              Some {| property := Some ["opacity"];
                                      duration := Some [] |} |}) I) _ eq_refl).
  discriminate.
Defined.

(** ** The animated components of the old engine *)

Lemma cacheGet_cacheSet_same cache C animated :
  cacheGet (cacheSet cache C animated) C = Some animated.
Proof. unfold cacheSet. simpl. rewrite Nat.eqb_refl. reflexivity. Qed.

Lemma cacheGet_cacheSet_other cache C D animated :
  component_id D <> component_id C ->
  cacheGet (cacheSet cache C animated) D = cacheGet cache D.
Proof.
  intros Hne. unfold cacheSet. simpl.
  destruct (component_id C =? component_id D)%nat eqn:E; [|reflexivity].
  apply Nat.eqb_eq in E. congruence.
Qed.

(** X22. [createAnimatedComponent] answers the same on a second call: a
    call that returns a component, asked again for the same component with
    the cache it left, returns that component again and leaves the cache
    as it is (the wrapper of reanimated is not called twice); and a call
    changes the cache for no other component. *)
Theorem createAnimatedComponent_is_stable :
  forall (wrap : Component -> Component) (cache cache' : AnimatedCache)
         (C animated : Component),
    createAnimatedComponent wrap cache C = Returned (animated, cache') ->
    createAnimatedComponent wrap cache' C = Returned (animated, cache')
    /\ forall D, component_id D <> component_id C ->
                 cacheGet cache' D = cacheGet cache D.
Proof.
  intros wrap cache cache' C animated Hcall.
  unfold createAnimatedComponent in Hcall.
  destruct (cacheGet cache C) as [found|] eqn:Hfound.
  - injection Hcall as <- <-. split; [|reflexivity].
    unfold createAnimatedComponent. rewrite Hfound. reflexivity.
  - destruct (match displayName C with
              | Some text => String.prefix "AnimatedComponent" text
              | None => false
              end) eqn:Hname.
    + injection Hcall as <- <-. split; [|reflexivity].
      unfold createAnimatedComponent. rewrite Hfound, Hname. reflexivity.
    + destruct (negb (negb (typeofFunction C) || isReactComponent C));
        [discriminate|].
      injection Hcall as <- <-. split.
      * unfold createAnimatedComponent.
        rewrite cacheGet_cacheSet_same. reflexivity.
      * intros D Hne. apply cacheGet_cacheSet_other. exact Hne.
Qed.

Lemma createAnimatedComponent_is_stable_witness :
  createAnimatedComponent wrapAnimated [] classComponent
  = Returned (wrapAnimated classComponent,
              cacheSet [] classComponent (wrapAnimated classComponent))
  /\ createAnimatedComponent wrapAnimated
       (cacheSet [] classComponent (wrapAnimated classComponent)) classComponent
     = Returned (wrapAnimated classComponent,
                 cacheSet [] classComponent (wrapAnimated classComponent)).
Proof.
  split; [reflexivity|].
  exact (proj1 (createAnimatedComponent_is_stable wrapAnimated [] _
                  classComponent _ eq_refl)).
Defined.

(** X23. [createAnimatedComponent] refuses exactly the components that
    are functions without [prototype.isReactComponent], are not in the
    cache and do not bear a [displayName] that starts with
    "AnimatedComponent". A component in the cache or with such a
    [displayName] is never refused, function or not. *)
Theorem createAnimatedComponent_refuses_plain_functions :
  forall (wrap : Component -> Component) (cache : AnimatedCache) (C : Component),
    (exists error, createAnimatedComponent wrap cache C = Threw error)
    <-> cacheGet cache C = None
        /\ match displayName C with
           | Some text => String.prefix "AnimatedComponent" text
           | None => false
           end = false
        /\ typeofFunction C = true
        /\ isReactComponent C = false.
Proof.
  intros wrap cache C. unfold createAnimatedComponent.
  destruct (cacheGet cache C).
  { split; [intros [error H]; discriminate | intros [H _]; discriminate]. }
  destruct (match displayName C with
            | Some text => String.prefix "AnimatedComponent" text
            | None => false
            end).
  { split; [intros [error H]; discriminate | intros [_ [H _]]; discriminate]. }
  destruct (typeofFunction C), (isReactComponent C); simpl; split;
    try (intros [error H]; discriminate);
    try (intros [_ [_ [H1 H2]]]; discriminate).
  - intros _. repeat split; reflexivity.
  - intros _. eexists. reflexivity.
Qed.

(** ** The render of the old [useAnimations] *)

Section OldRenderFacts.
Context {R : Runtime}.
Variable animationMap : string -> option ExtractedAnimation.

(** X24. On the first render of the old [useAnimations], a first
    animation that is named, has an iteration count and a duration to read,
    and whose timing function is of type [steps] makes the render throw
    "Not supported". *)
Theorem steps_animation_throws_on_first_render :
  forall (style : Style) (options : FlattenStyleOptions)
         (animations : ExtractedAnimations)
         (value : string) (rest : list AnimationName)
         (timingFunction : EasingFunction),
    anim_name animations = Some (NameIdent value :: rest) ->
    anim_iterationCount animations <> Some [] ->
    anim_duration animations <> Some [] ->
    getValue (anim_timingFunction animations) 0
      {| easing_type := "linear"; easing_fields := [] |}
    = Some timingFunction ->
    easing_type timingFunction = "steps" ->
    useAnimations animationMap [] style (Some animations) options
    = Threw "Not supported".
Proof.
  intros style options animations value rest timingFunction
         Hnames Hcount Hduration Htiming Hsteps.
  unfold useAnimations. rewrite Hnames. simpl.
  unfold useAnimations_turn. simpl.
  assert (Hsome : forall {T} (array : option (list T)) (d : T),
             array <> Some [] -> exists x, getValue array 0 d = Some x).
  { intros T [array|] d Hne.
    - apply getValue_nonempty. intros ->. apply Hne. reflexivity.
    - eexists. reflexivity. }
  destruct (Hsome _ (anim_iterationCount animations)
              {| count_type := "number"; count_value := one |} Hcount)
    as [count ->].
  unfold useAnimations_memo.
  destruct (Hsome _ (anim_duration animations)
              {| time_type := "seconds"; time_value := zero |} Hduration)
    as [time ->].
  rewrite Htiming. unfold timingToEasing. rewrite Hsteps. reflexivity.
Qed.

Lemma first_render_turns style options animations names index position :
  forall slots,
    useAnimations_turns animationMap style options animations [] names index position
    = Returned slots ->
    Forall drivenOverTenSeconds slots
    /\ List.length slots = List.length (filter named names).
Proof.
  revert index position.
  induction names as [|name rest IH]; intros index position slots Hturns;
    simpl in Hturns.
  - injection Hturns as <-. split; [constructor | reflexivity].
  - replace (nth_error (@nil AnimationHook) position) with (@None AnimationHook)
      in Hturns by (destruct position; reflexivity).
    unfold useAnimations_turn in Hturns.
    destruct name as [|value]; simpl in Hturns.
    + apply (IH _ _ _ Hturns).
    + destruct (getValue (anim_iterationCount animations) index _);
        [|discriminate].
      destruct (useAnimations_memo animations index freshCell) as [cell|] eqn:Ememo;
        [|discriminate].
      destruct (useAnimations_turns animationMap style options animations []
                  rest (S index) (S position)) as [more|] eqn:Erest;
        [|discriminate].
      injection Hturns as <-.
      destruct (IH _ _ _ Erest) as [Hall Hlen].
      split; [|simpl; rewrite Hlen; reflexivity].
      constructor; [|exact Hall].
      unfold useAnimations_memo in Ememo.
      destruct (getValue (anim_duration animations) index _); [|discriminate].
      destruct (getValue (anim_timingFunction animations) index _);
        [|discriminate].
      destruct (timingToEasing e); [|discriminate].
      injection Ememo as <-. reflexivity.
Qed.

(** X25. A first render of the old [useAnimations] that returns has made
    one slot for every name that is not [{ type: "none" }], and has set
    the progress of every slot to 0 and driven it to 1 over 10000 ms: the
    duration, the iteration count, the direction and the fill mode of the
    metadata do not reach the driver. *)
Theorem old_animations_run_for_ten_seconds :
  forall (style : Style) (options : FlattenStyleOptions)
         (animations : ExtractedAnimations) (names : list AnimationName)
         (slots : list (list Keyframe * AnimationHook)),
    anim_name animations = Some names ->
    useAnimations animationMap [] style (Some animations) options = Returned slots ->
    Forall drivenOverTenSeconds slots
    /\ List.length slots = List.length (filter named names).
Proof.
  intros style options animations names slots Hnames Hrender.
  unfold useAnimations in Hrender. rewrite Hnames in Hrender.
  apply (first_render_turns _ _ _ _ _ _ _ Hrender).
Qed.

Lemma rerender_turns style style' options animations animations' names :
  forall index position hooks slots,
    anim_iterationCount animations' = anim_iterationCount animations ->
    (forall name, useAnimations_keyframes animationMap style' options name
                  = useAnimations_keyframes animationMap style options name) ->
    useAnimations_turns animationMap style options animations [] names index position
    = Returned slots ->
    (forall j, nth_error hooks (position + j) = nth_error (map snd slots) j) ->
    useAnimations_turns animationMap style' options animations' hooks names
      index position
    = Returned slots.
Proof.
  induction names as [|name rest IH];
    intros index position hooks slots Hcount Hkeyframes Hfirst Hhooks;
    simpl in *; [exact Hfirst|].
  replace (nth_error (@nil AnimationHook) position) with (@None AnimationHook)
    in Hfirst by (destruct position; reflexivity).
  unfold useAnimations_turn in *. rewrite Hkeyframes, Hcount.
  destruct (useAnimations_keyframes animationMap style options name)
    as [keyframes|].
  - destruct (getValue (anim_iterationCount animations) index _); [|discriminate].
    destruct (useAnimations_memo animations index freshCell) as [cell|];
      [|discriminate].
    destruct (useAnimations_turns animationMap style options animations []
                rest (S index) (S position)) as [more|] eqn:Erest;
      [|discriminate].
    injection Hfirst as <-.
    pose proof (Hhooks 0) as Hhere. rewrite Nat.add_0_r in Hhere.
    simpl in Hhere. rewrite Hhere. simpl. rewrite Nat.eqb_refl.
    rewrite (IH (S index) (S position) hooks more Hcount Hkeyframes Erest).
    + reflexivity.
    + intros j. replace (S position + j) with (position + S j) by lia.
      rewrite Hhooks. reflexivity.
  - apply IH; assumption.
Qed.

(** X26. A render of the old [useAnimations] that follows its first
    render with the same names, iteration counts, style and animation map
    returns the same slots and touches no progress cell, whatever the
    durations, timing functions, directions and fill modes it is given:
    [useMemo] depends on the number of keyframes only, so a timing function
    that has become [steps] does not throw, and nothing restarts. *)
Theorem old_rerender_changes_nothing :
  forall (style : Style) (options : FlattenStyleOptions)
         (animations animations' : ExtractedAnimations)
         (slots : list (list Keyframe * AnimationHook)),
    anim_name animations' = anim_name animations ->
    anim_iterationCount animations' = anim_iterationCount animations ->
    useAnimations animationMap [] style (Some animations) options = Returned slots ->
    useAnimations animationMap (map snd slots) style (Some animations') options
    = Returned slots.
Proof.
  intros style options animations animations' slots Hnames Hcount Hfirst.
  unfold useAnimations in *. rewrite Hnames.
  destruct (anim_name animations) as [names|]; [|discriminate].
  apply (rerender_turns style style options animations animations' names
           0 0 (map snd slots) slots Hcount (fun _ => eq_refl) Hfirst).
  intros j. reflexivity.
Qed.

End OldRenderFacts.

Lemma steps_animation_throws_on_first_render_witness :
  anim_name stepped = Some [NameIdent "spin"]
  /\ anim_iterationCount stepped <> Some []
  /\ anim_duration stepped <> Some []
  /\ useAnimations (R := refRuntime) spinMap [] [] (Some stepped) noOptions
     = Threw "Not supported".
Proof.
  split; [reflexivity|]. split; [discriminate|]. split; [discriminate|].
  refine (steps_animation_throws_on_first_render (R := refRuntime) spinMap []
            noOptions stepped "spin" []
            {| easing_type := "steps"; easing_fields := [("count", vint 4)] |}
            eq_refl _ _ eq_refl eq_refl); discriminate.
Defined.

Lemma old_animations_run_for_ten_seconds_witness :
  let slots :=
    slotsOf (useAnimations (R := refRuntime) spinMap [] [] (Some smooth) noOptions) in
  anim_name smooth = Some [NameIdent "spin"]
  /\ useAnimations (R := refRuntime) spinMap [] [] (Some smooth) noOptions
     = Returned slots
  /\ Forall drivenOverTenSeconds slots.
Proof.
  cbv zeta.
  assert (Hrender :
            useAnimations (R := refRuntime) spinMap [] [] (Some smooth) noOptions
            = Returned (slotsOf (useAnimations (R := refRuntime) spinMap [] []
                                   (Some smooth) noOptions)))
    by reflexivity.
  split; [reflexivity|]. split; [exact Hrender|].
  exact (proj1 (old_animations_run_for_ten_seconds (R := refRuntime) spinMap []
                  noOptions smooth [NameIdent "spin"] _ eq_refl Hrender)).
Defined.

Lemma old_rerender_changes_nothing_witness :
  let slots :=
    slotsOf (useAnimations (R := refRuntime) spinMap [] [] (Some smooth) noOptions) in
  anim_name stepped = anim_name smooth
  /\ anim_iterationCount stepped = anim_iterationCount smooth
  /\ useAnimations (R := refRuntime) spinMap [] [] (Some smooth) noOptions
     = Returned slots
  /\ useAnimations (R := refRuntime) spinMap (map snd slots) [] (Some stepped)
       noOptions
     = Returned slots.
Proof.
  cbv zeta.
  assert (Hrender :
            useAnimations (R := refRuntime) spinMap [] [] (Some smooth) noOptions
            = Returned (slotsOf (useAnimations (R := refRuntime) spinMap [] []
                                   (Some smooth) noOptions)))
    by reflexivity.
  split; [reflexivity|]. split; [reflexivity|]. split; [exact Hrender|].
  exact (old_rerender_changes_nothing (R := refRuntime) spinMap [] noOptions
           smooth stepped _ eq_refl eq_refl Hrender).
Defined.

(** ** Between two frames *)

Lemma between_floor (q : Qc) (i : nat) :
  (inject_Z (Z.of_nat i) < q)%Q ->
  (q < inject_Z (Z.of_nat i + 1))%Q ->
  Qfloor q = Z.of_nat i /\ Qceiling q = (Z.of_nat i + 1)%Z.
Proof.
  intros Hlow Hhigh. split.
  - pose proof (Qfloor_le q) as Hle. pose proof (Qlt_floor q) as Hlt.
    assert (Z.of_nat i < Qfloor q + 1)%Z
      by (rewrite Zlt_Qlt; eapply Qlt_trans; eassumption).
    assert (Qfloor q < Z.of_nat i + 1)%Z
      by (rewrite Zlt_Qlt; eapply Qle_lt_trans; eassumption).
    lia.
  - pose proof (Qle_ceiling q) as Hle. pose proof (Qceiling_lt q) as Hlt.
    assert (Z.of_nat i < Qceiling q)%Z
      by (rewrite Zlt_Qlt; eapply Qlt_le_trans; eassumption).
    assert (Qceiling q - 1 < Z.of_nat i + 1)%Z
      by (rewrite Zlt_Qlt; eapply Qlt_trans; eassumption).
    lia.
Qed.

Lemma between_is_no_integer (q : Qc) (i : nat) (z : Z) :
  (inject_Z (Z.of_nat i) < q)%Q ->
  (q < inject_Z (Z.of_nat i + 1))%Q ->
  num_eqb (Fin q) (num_of_Z z) = false.
Proof.
  intros Hlow Hhigh. unfold num_eqb, num_of_Z.
  destruct (Qeq_bool q (Q2Qc (inject_Z z))) eqn:E; [|reflexivity].
  exfalso. apply Qeq_bool_eq in E.
  assert (Hz : (q == inject_Z z)%Q).
  { rewrite E. apply Qred_correct. }
  rewrite Hz in Hlow, Hhigh.
  rewrite <- Zlt_Qlt in Hlow. rewrite <- Zlt_Qlt in Hhigh. lia.
Qed.

Lemma between_frames (q : Qc) (i : nat) :
  (inject_Z (Z.of_nat i) < q)%Q ->
  (q < inject_Z (Z.of_nat i + 1))%Q ->
  mathFloor (Fin q) = num_of_Z (Z.of_nat i)
  /\ mathCeil (Fin q) = num_of_Z (Z.of_nat (S i))
  /\ mod1 (Fin q) = Fin (q - Q2Qc (inject_Z (Z.of_nat i)))%Qc.
Proof.
  intros Hlow Hhigh.
  destruct (between_floor q i Hlow Hhigh) as [Hfloor Hceil].
  unfold mathFloor, mathCeil, mod1. rewrite Hfloor, Hceil.
  split; [reflexivity|]. split.
  - f_equal. f_equal. f_equal. lia.
  - replace (Qle_bool 0 q) with true; [reflexivity|].
    symmetry. apply Qle_bool_iff. apply Qlt_le_weak.
    eapply Qle_lt_trans; [|exact Hlow].
    change 0%Q with (inject_Z 0). rewrite <- Zle_Qle. lia.
Qed.

Section BetweenFrames.
Context {R : Runtime}.

(** X27. Which frames the per-frame computations take: for a progress
    strictly between the indices [i] and [i + 1], both engines interpolate
    from frame [i] to frame [i + 1] at the fractional progress
    [progress - i]. When frame [i + 1] is missing, the old engine throws a
    TypeError and the current one leaves the slot out and goes on. *)
Theorem frames_around_the_progress :
  forall (keyframes : list Keyframe) (i : nat) (q : Qc) (fromFrame : Keyframe),
    (inject_Z (Z.of_nat i) < q)%Q ->
    (q < inject_Z (Z.of_nat i + 1))%Q ->
    nth_error keyframes i = Some fromFrame ->
    let frameProgress := Fin (q - Q2Qc (inject_Z (Z.of_nat i)))%Qc in
    (forall toFrame,
        nth_error keyframes (S i) = Some toFrame ->
        useAnimations_worklet keyframes (Fin q)
        = match oldEntries frameProgress (num_of_Z (Z.of_nat i))
                  (kf_style fromFrame) (kf_style toFrame) [] with
          | Some style => Returned style
          | None => Threw TypeError
          end
        /\ forall style index animations result,
             framesAt animations index = keyframes ->
             worklet_animation style animations index (Fin q) result
             = match worklet_entries style frameProgress (kf_style fromFrame)
                       (kf_style toFrame) result with
               | Some result' => Continue result'
               | None => Raise TypeError
               end)
    /\ (nth_error keyframes (S i) = None ->
        useAnimations_worklet keyframes (Fin q) = Threw TypeError
        /\ forall style index animations result,
             framesAt animations index = keyframes ->
             worklet_animation style animations index (Fin q) result
             = Continue result).
Proof.
  intros keyframes i q fromFrame Hlow Hhigh Hfrom frameProgress.
  destruct (between_frames q i Hlow Hhigh) as [Hfloor [Hceil Hmod]].
  assert (Hzero : num_eqb (Fin q) zero = false)
    by exact (between_is_no_integer q i 0 Hlow Hhigh).
  assert (Hlast : forall z, num_eqb (Fin q) (num_of_Z z) = false)
    by (intros z; exact (between_is_no_integer q i z Hlow Hhigh)).
  split.
  - intros toFrame Hto. split.
    + unfold useAnimations_worklet.
      rewrite Hzero, Hlast, Hfloor, Hceil, Hmod, !at_index, Hfrom, Hto.
      reflexivity.
    + intros style index animations result Hframes.
      unfold worklet_animation.
      rewrite Hframes, Hzero, Hlast, Hfloor, Hceil, Hmod, !at_index, Hfrom, Hto.
      reflexivity.
  - intros Hto. split.
    + unfold useAnimations_worklet.
      rewrite Hzero, Hlast, Hfloor, Hceil, !at_index, Hfrom, Hto.
      reflexivity.
    + intros style index animations result Hframes.
      unfold worklet_animation.
      rewrite Hframes, Hzero, Hlast, Hfloor, Hceil, !at_index, Hfrom, Hto.
      reflexivity.
Qed.

End BetweenFrames.

Lemma frames_around_the_progress_witness :
  (inject_Z (Z.of_nat 0) < half_q)%Q
  /\ (half_q < inject_Z (Z.of_nat 0 + 1))%Q
  /\ useAnimations_worklet (R := refRuntime) slideThenScale (Fin half_q)
     = match oldEntries (Fin (half_q - Q2Qc (inject_Z (Z.of_nat 0)))%Qc)
               (num_of_Z (Z.of_nat 0))
               [("transform", VArr [VObj [("translateX", vint 10)]])]
               [("transform", VArr [VObj [("scale", vint 2)]])] [] with
       | Some style => Returned style
       | None => Threw TypeError
       end.
Proof.
  assert (Hlow : (inject_Z (Z.of_nat 0) < half_q)%Q) by reflexivity.
  assert (Hhigh : (half_q < inject_Z (Z.of_nat 0 + 1))%Q) by reflexivity.
  split; [exact Hlow|]. split; [exact Hhigh|].
  exact (proj1 (proj1 (frames_around_the_progress (R := refRuntime) slideThenScale
                         0 half_q
                         (frame [("transform", VArr [VObj [("translateX", vint 10)]])])
                         Hlow Hhigh eq_refl)
                  (frame [("transform", VArr [VObj [("scale", vint 2)]])]) eq_refl)).
Defined.

(* ================================================================== *)
(** ** The first value of a transitioned property *)

Section FirstValue.
Context {R : Runtime}.

(** The transitions loop leaves a property alone that no entry from
    [start] on bears. *)
Lemma worklet_transitions_untouched (transitions : list TransitionSchema)
    (progresses : list num) (key : string) :
  forall (start : nat) (result : object),
    (forall j t, start <= j -> nth_error transitions j = Some t -> prop t <> key) ->
    getProp (worklet_transitions transitions progresses start result) key
    = getProp result key.
Proof.
  induction progresses as [|progress rest IH]; intros start result Hother;
    simpl; [reflexivity|].
  assert (Hrest : forall j t, S start <= j ->
                         nth_error transitions j = Some t -> prop t <> key)
    by (intros j t Hj; apply Hother; lia).
  destruct (nth_error transitions start) as [t|] eqn:Hslot.
  - rewrite (IH (S start) _ Hrest). apply getProp_setProp_other.
    intros Hsame. exact (Hother start t (le_n start) Hslot (eq_sym Hsame)).
  - exact (IH (S start) result Hrest).
Qed.

(** The property of the entry at [index], which no other entry bears, is
    left by the transitions loop with the interpolation of that entry's
    pair at the progress of the same index. *)
Lemma worklet_transitions_writes (transitions : list TransitionSchema)
    (index : nat) (t : TransitionSchema) (progress : num) :
  nth_error transitions index = Some t ->
  (forall j t', j <> index -> nth_error transitions j = Some t' ->
                prop t' <> prop t) ->
  forall (progresses : list num) (start : nat) (result : object),
    start <= index ->
    nth_error progresses (index - start) = Some progress ->
    getProp (worklet_transitions transitions progresses start result) (prop t)
    = interpolation progress (fst (output t)) (snd (output t))
        (isColorProp (prop t)).
Proof.
  intros Hentry Hother.
  intros progresses. induction progresses as [|head rest IH]; intros start result Hle Hprogress.
  - destruct (index - start); discriminate.
  - simpl. destruct (Nat.eq_dec start index) as [->|Hne].
    + rewrite Nat.sub_diag in Hprogress. simpl in Hprogress.
      injection Hprogress as ->. rewrite Hentry.
      rewrite worklet_transitions_untouched.
      * apply getProp_setProp_same.
      * intros j t' Hj. apply Hother. lia.
    + assert (Hstep : index - start = S (index - S start)) by lia.
      rewrite Hstep in Hprogress. simpl in Hprogress.
      destruct (nth_error transitions start);
        apply IH; try lia; exact Hprogress.
Qed.

End FirstValue.

(** C5, as stated, fails. The first observed value ["700"] of [fontWeight]
    gives the pair [("700", "700")], and the per-frame computation puts the
    number 0 in [fontWeight], at progress 0 and at progress 1/2, because a
    text with no trailing unit is not interpolated. The first value
    ["10.0px"] of [width] is given back as ["10px"], the text of its
    number followed by its unit. The first value ["red"] of [color] is
    given back as the text that [interpolateColor] makes of it. And with
    an animation on the same style, the first frame after the first render
    is the style of the first keyframe, in which the transitioned
    [opacity] is absent. *)
Lemma first_value_not_held_counterexample :
  (let style := [("fontWeight", VStr "700")] in
   let hooks :=
     useSchema (R := refRuntime) noAnimations firstRender style
       (transitionOf ["fontWeight"] 250) noOptions in
   transitions (schema hooks)
   = [ {| prop := "fontWeight"; output := (VStr "700", VStr "700") |} ]
   /\ useAnimated_worklet (R := refRuntime) style (schema hooks) [zero] []
      = Returned [("fontWeight", VNum zero)]
   /\ useAnimated_worklet (R := refRuntime) style (schema hooks) [half] []
      = Returned [("fontWeight", VNum zero)]
   /\ VNum zero <> VStr "700")
  /\ (let style := [("width", VStr "10.0px")] in
      let hooks :=
        useSchema (R := refRuntime) noAnimations firstRender style
          (transitionOf ["width"] 250) noOptions in
      transitions (schema hooks)
      = [ {| prop := "width"; output := (VStr "10.0px", VStr "10.0px") |} ]
      /\ matchUnit "10.0px" = Some "px"
      /\ useAnimated_worklet (R := refRuntime) style (schema hooks) [half] []
         = Returned [("width", VStr "10px"); ("fontWeight", VUndefined)]
      /\ VStr "10px" <> VStr "10.0px")
  /\ (let style := [("color", VStr "red")] in
      let hooks :=
        useSchema (R := refRuntime) noAnimations firstRender style
          (transitionOf ["color"] 250) noOptions in
      transitions (schema hooks)
      = [ {| prop := "color"; output := (VStr "red", VStr "red") |} ]
      /\ useAnimated_worklet (R := refRuntime) style (schema hooks) [half] []
         = Returned [("color", interpolateColor half (VStr "red") (VStr "red"));
                     ("fontWeight", VUndefined)]
      /\ interpolateColor (Runtime := refRuntime) half (VStr "red") (VStr "red")
         <> VStr "red")
  /\ (let style := [("opacity", vint 1)] in
      let hooks :=
        useSchema (R := refRuntime) spinMap firstRender style
          (Some {| meta_animations := Some {| name := Some [NameIdent "spin"] |};
                   meta_transition :=
                     Some {| property := Some ["opacity"];
                             duration := Some [milliseconds 250] |} |})
          noOptions in
      transitions (schema hooks)
      = [ {| prop := "opacity"; output := (vint 1, vint 1) |} ]
      /\ animatedFrame (R := refRuntime) hooks style
         = Returned [("transform", VArr [VObj [("rotate", VStr "0deg")]])]
      /\ getProp [("transform", VArr [VObj [("rotate", VStr "0deg")]])] "opacity"
         = VUndefined).
Proof.
  cbv zeta.
  split; [|split; [|split]].
  - split; [reflexivity|]. split; [reflexivity|]. split; [reflexivity|].
    discriminate.
  - split; [reflexivity|]. split; [reflexivity|]. split; [same_values|].
    discriminate.
  - split; [reflexivity|]. split; [same_values|]. discriminate.
  - split; [same_values|]. split; [same_values|]. reflexivity.
Qed.

(** C5, amended. A first observed value [v] that is neither [undefined]
    nor [null] makes the tracked pair [(v, v)]; the old tracker does so
    for every first value but [undefined], when its list of durations is
    not empty. For a tracked pair [(v, v)] whose property no other tracked
    transition bears, and with no animation on the style, the per-frame
    computation leaves the property with the interpolation of [v] and [v]
    at the current progress, whatever that progress is: this is [v] for a
    number [v] on a property that is not a colour property, when
    [interpolate] between [v] and [v] gives [v]; it is [v] for a text [v]
    with a trailing unit on such a property, when the text of its
    interpolated number followed by the unit is [v] again; and it is what
    [interpolateColor] gives between [v] and [v] on a colour property. *)
Theorem first_value_is_held {R : Runtime} :
  (forall animationMap style meta options index key,
      nth_error (transitionsOf meta) index = Some key ->
      getProp style key <> VUndefined ->
      getProp style key <> VNull ->
      In {| prop := key; output := (getProp style key, getProp style key) |}
         (transitions
            (schema (useSchema animationMap firstRender style meta options))))
  /\ (forall DEV style meta index key,
         nth_error (transitionsOf meta) index = Some key ->
         getProp style key <> VUndefined ->
         durationsOf meta <> [] ->
         exists hooks,
           useTransitions DEV beforeFirstRender style meta = Returned hooks
           /\ nth_error (outputs hooks) index
              = Some (Some (getProp style key, getProp style key)))
  /\ (forall style schema transitionProgress index key v progress,
         nth_error (transitions schema) index
         = Some {| prop := key; output := (v, v) |} ->
         nth_error transitionProgress index = Some progress ->
         (forall j t, j <> index -> nth_error (transitions schema) j = Some t ->
                      prop t <> key) ->
         exists result,
           useAnimated_worklet style schema transitionProgress [] = Returned result
           /\ getProp result key = interpolation progress v v (isColorProp key)
           /\ (forall x : num,
                  v = VNum x -> isColorProp key = false ->
                  interpolate progress x x = x ->
                  getProp result key = v)
           /\ (forall s unit : string,
                  v = VStr s -> isColorProp key = false ->
                  matchUnit s = Some unit ->
                  (numToString (interpolate progress (parseFloat s) (parseFloat s))
                   ++ unit)%string = s ->
                  getProp result key = v)
           /\ (isColorProp key = true ->
               getProp result key = interpolateColor progress v v)).
Proof.
  split; [|split].
  - intros animationMap style meta options index key Hprop Hundefined Hnull.
    exact (useSchema_starts_pair animationMap style meta options index key
             Hprop Hundefined Hnull).
  - intros DEV style meta index key Hprop Hdefined Hdurations.
    unfold useTransitions. simpl.
    unfold typedProperties. rewrite length_map, Nat.eqb_refl, andb_false_r.
    destruct (transitionTurns_total style (durationsOf meta) beforeFirstRender
                (transitionsOf meta) 0 Hdurations) as [turns Hturns].
    rewrite Hturns. eexists. split; [reflexivity|]. simpl.
    destruct (transitionTurns_nth _ _ _ _ _ _ _ _ Hturns Hprop)
      as [turn [Hturn Hnth]].
    rewrite nth_error_map, Hnth. simpl. f_equal.
    simpl in Hturn. unfold transitionTurn in Hturn.
    destruct (getValue (Some (durationsOf meta)) index defaultDuration);
      [|discriminate].
    replace (hookAt (outputs beforeFirstRender) index None)
      with (@None (value * value)) in Hturn
      by (unfold hookAt; simpl; destruct index; reflexivity).
    destruct (getProp style key); try contradiction;
      injection Hturn as <-; reflexivity.
  - intros style schema transitionProgress index key v progress
           Hentry Hprogress Hother.
    assert (Hwritten :
              getProp (worklet_transitions (transitions schema)
                         transitionProgress 0 (coerceFontWeight style)) key
              = interpolation progress v v (isColorProp key)).
    { apply (worklet_transitions_writes (transitions schema) index
               {| prop := key; output := (v, v) |} progress Hentry Hother
               transitionProgress 0 (coerceFontWeight style) (Nat.le_0_l index)).
      rewrite Nat.sub_0_r. exact Hprogress. }
    eexists. split; [reflexivity|]. split; [exact Hwritten|].
    split; [|split].
    + intros x -> Hcolour Hfixed. rewrite Hwritten, Hcolour.
      rewrite interpolation_numbers, Hfixed. reflexivity.
    + intros s unit -> Hcolour Hunit Htext. rewrite Hwritten, Hcolour.
      unfold interpolation. simpl. rewrite Hunit, Htext. reflexivity.
    + intros Hcolour. rewrite Hwritten, Hcolour. reflexivity.
Qed.

Lemma first_value_is_held_witness :
  let style := [("opacity", vint 1)] in
  let hooks :=
    useSchema (R := refRuntime) noAnimations firstRender style
      (transitionOf ["opacity"] 250) noOptions in
  nth_error (transitions (schema hooks)) 0
  = Some {| prop := "opacity"; output := (vint 1, vint 1) |}
  /\ nth_error [half] 0 = Some half
  /\ (forall j t, j <> 0 -> nth_error (transitions (schema hooks)) j = Some t ->
                  prop t <> "opacity")
  /\ exists result,
       useAnimated_worklet (R := refRuntime) style (schema hooks) [half] []
       = Returned result
       /\ getProp result "opacity" = vint 1.
Proof.
  cbv zeta.
  assert (Hother :
            forall j t, j <> 0 ->
              nth_error
                (transitions
                   (schema (useSchema (R := refRuntime) noAnimations firstRender
                              [("opacity", vint 1)]
                              (transitionOf ["opacity"] 250) noOptions))) j
              = Some t ->
              prop t <> "opacity").
  { intros [|[|j]] t Hj Hnth; [contradiction|discriminate|discriminate]. }
  split; [reflexivity|]. split; [reflexivity|]. split; [exact Hother|].
  destruct (proj2 (proj2 (first_value_is_held (R := refRuntime)))
              [("opacity", vint 1)]
              (schema (useSchema (R := refRuntime) noAnimations firstRender
                         [("opacity", vint 1)]
                         (transitionOf ["opacity"] 250) noOptions))
              [half] 0 "opacity" (vint 1) half eq_refl eq_refl Hother)
    as [result [Hreturned [_ [Hnumber _]]]].
  exists result. split; [exact Hreturned|].
  apply (Hnumber (num_of_Z 1) eq_refl eq_refl).
  unfold interpolate, refRuntime, half, num_of_Z. apply linear_constant.
Defined.
